(** * MSS identity provider (mslib/msidp/idp.py): a shallow embedding

    The development follows the layout of [idp.py]: the session cache, the
    cookie helpers, the [Service] base class and its [SSO] and [SLO]
    subclasses, the URL tables and the WSGI entry point [application].

    Python values are modelled as follows:
    - [str] is [string]; [bytes] is [list byte];
    - a [dict] with [str] keys is a [gmap string _];
    - a raised exception is the [Raise] outcome of [result];
    - module level mutable objects ([IDP.cache], [IDP.ticket]) are explicit
      state, passed in and returned;
    - the pysaml2 server object [IDP] and the other imported helpers are the
      fields of the record [IdpServer]. *)

From Stdlib Require Import ZArith NArith Lia List Ascii String Bool.
From Stdlib.Strings Require Import Byte.
From stdpp Require Import base option strings gmap list.

Set Default Proof Using "Type".

(** ** Python outcomes *)

Module Py.

(** The exception classes that [idp.py] raises or handles. The three
    [ValueError] subclasses are kept apart from [ValueError] itself;
    [http.cookies.CookieError] derives from [Exception] directly. *)
Inductive exn : Type :=
| KeyError
| TypeError
| ValueError
| BinasciiError        (* binascii.Error, a ValueError *)
| UnicodeEncodeError   (* a ValueError *)
| UnicodeDecodeError   (* a ValueError *)
| AttributeError
| IndexError
| CookieError.         (* http.cookies.CookieError *)

Inductive result (A : Type) : Type :=
| Ok (a : A)
| Raise (e : exn).
Arguments Ok {A} a.
Arguments Raise {A} e.

Definition bind {A B} (r : result A) (k : A -> result B) : result B :=
  match r with
  | Ok a => k a
  | Raise e => Raise e
  end.

(** [isinstance(e, ValueError)], as an [except ValueError] clause tests it. *)
Definition is_ValueError (e : exn) : bool :=
  match e with
  | ValueError | BinasciiError | UnicodeEncodeError | UnicodeDecodeError => true
  | _ => false
  end.

Definition is_KeyError (e : exn) : bool :=
  match e with KeyError => true | _ => false end.

Definition is_TypeError (e : exn) : bool :=
  match e with TypeError => true | _ => false end.

(** [d[k]] on a dict. *)
Definition getitem {V} (d : gmap string V) (k : string) : result V :=
  match d !! k with
  | Some v => Ok v
  | None => Raise KeyError
  end.

End Py.

Import Py.

Notation "x <- r ;; k" := (Py.bind r (fun x => k))
  (at level 100, r at next level, right associativity).

(** ** HTTP responses of [saml2.httputil] *)

(** Modelled from the spec: the response classes of [saml2.httputil] are
    imported by [idp.py] and not part of the repository. The spec lists the
    status lines the service answers with: 200, 302, 400, 401, 404 and the
    500-class [ServiceError]. *)
Inductive response_class : Type :=
| CResponse
| CRedirect
| CBadRequest
| CUnauthorized
| CNotFound
| CServiceError.

(** A response object: its class, its message (the body, or the location of
    a redirect) and the headers given to its constructor. *)
Record response : Type := mkResponse {
  rclass : response_class;
  rmessage : string;
  rheaders : list (string * string)
}.

Definition Response (body : string) (hs : list (string * string)) : response :=
  mkResponse CResponse body hs.
Definition Redirect (location : string) (hs : list (string * string)) : response :=
  mkResponse CRedirect location hs.
Definition BadRequest (message : string) : response :=
  mkResponse CBadRequest message [].
Definition Unauthorized (message : string) : response :=
  mkResponse CUnauthorized message [].
Definition NotFound (message : string) : response :=
  mkResponse CNotFound message [].
Definition ServiceError (message : string) : response :=
  mkResponse CServiceError message [].

(** A call [cls(message, *more)] with positional arguments only. The
    constructor of the response classes is
    [Response.__init__(self, message=None, **kwargs)]: it binds one
    positional argument, and a call that passes another one raises a
    [TypeError] before any object is built. *)
Definition call_positional {A : Type} (cls : string -> response)
    (message : string) (more : list A) : result response :=
  match more with
  | [] => Ok (cls message)
  | _ :: _ => Raise TypeError
  end.

(** The status code of the [_status] line of each class. *)
Definition status_of_class (c : response_class) : nat :=
  match c with
  | CResponse => 200
  | CRedirect => 302
  | CBadRequest => 400
  | CUnauthorized => 401
  | CNotFound => 404
  | CServiceError => 500
  end.

Definition status (r : response) : nat := status_of_class (rclass r).

(** ** The session cache: [class Cache] *)

Record Cache : Type := mkCache {
  user2uid : gmap string string;
  uid2user : gmap string string
}.

(** [Cache.__init__] *)
Definition Cache_init : Cache := mkCache ∅ ∅.

(** The registration step of [do_verify]:
    [cache.uid2user[uid] = user; cache.user2uid[user] = uid], where [uid] is
    the value [rndstr(24)] returned. *)
Definition cache_register (c : Cache) (user uid : string) : Cache :=
  mkCache (<[user := uid]> (user2uid c)) (<[uid := user]> (uid2user c)).

(** The removal step of [SLO.do] for the local identifier [lid]. *)
Definition cache_remove (c : Cache) (lid : string) : Cache :=
  match user2uid c !! lid with
  | Some uid =>
      let u2u :=
        match uid2user c !! uid with
        | Some _ => delete uid (uid2user c)
        | None => uid2user c
        end in
      mkCache (delete lid (user2uid c)) u2u
  | None => c
  end.

(** [cache.uid2user[s]] and [cache.user2uid[u]]; [None] is the [KeyError]. *)
Definition lookup_session (c : Cache) (s : string) : option string :=
  uid2user c !! s.

Definition lookup_by_user (c : Cache) (u : string) : option string :=
  user2uid c !! u.

(** ** Text and bytes *)

Definition bytes : Type := list byte.

Definition is_ascii_byte (b : byte) : bool := (Byte.to_N b <? 128)%N.

(** [s.encode("ascii")] *)
Definition str_encode_ascii (s : string) : result bytes :=
  let bs := list_byte_of_string s in
  if forallb is_ascii_byte bs then Ok bs else Raise UnicodeEncodeError.

(** [b.decode("ascii")] *)
Definition bytes_decode_ascii (bs : bytes) : result string :=
  if forallb is_ascii_byte bs then Ok (string_of_list_byte bs)
  else Raise UnicodeDecodeError.

(** Whether [s.encode("ascii")] succeeds. *)
Definition is_ascii_str (s : string) : bool :=
  forallb is_ascii_byte (list_byte_of_string s).

(** [sep.join(args)] *)
Fixpoint str_join (sep : string) (args : list string) : string :=
  match args with
  | [] => ""
  | [a] => a
  | a :: rest => a +:+ sep +:+ str_join sep rest
  end.

(** The first occurrence of the character [sep] cuts [s] in two. *)
Fixpoint cut_at (sep : ascii) (s : string) : option (string * string) :=
  match s with
  | EmptyString => None
  | String c r =>
      if Ascii.eqb c sep then Some (EmptyString, r)
      else match cut_at sep r with
           | Some (a, b) => Some (String c a, b)
           | None => None
           end
  end.

(** [s.split(sep, 1)] for a one character separator. *)
Definition str_split1 (sep : ascii) (s : string) : list string :=
  match cut_at sep s with
  | Some (a, b) => [a; b]
  | None => [s]
  end.

(** [x, y = l]: unpacking into two names. *)
Definition unpack2 {A} (l : list A) : result (A * A) :=
  match l with
  | [x; y] => Ok (x, y)
  | _ => Raise ValueError
  end.

(** ** Base64, as [base64.b64encode] and [base64.b64decode] compute it *)

Module Base64.

Definition alphabet : bytes :=
  list_byte_of_string
    "ABCDEFGHIJKLMNOPQRSTUVWXYZabcdefghijklmnopqrstuvwxyz0123456789+/".

Definition pad : byte := "="%byte.

(** [table_b2a_base64[v]] *)
Definition table_b2a (v : N) : byte := nth (N.to_nat v) alphabet pad.

Fixpoint index_of (ch : byte) (l : bytes) (i : N) : option N :=
  match l with
  | [] => None
  | x :: r => if Byte.eqb x ch then Some i else index_of ch r (N.succ i)
  end.

(** [table_a2b_base64[ch]]; [None] stands for the entries that are not a
    digit of the alphabet. *)
Definition table_a2b (ch : byte) : option N := index_of ch alphabet 0%N.

(** A value stored into an [unsigned char]. *)
Definition byte_of_N (n : N) : byte :=
  default "000"%byte (Byte.of_N (n mod 256)%N).

(** [binascii.b2a_base64] without the trailing newline: three bytes give
    four digits, a last group of one or two bytes is padded with [=]. The
    shifts and masks of the C code are written as multiplications,
    divisions and remainders by powers of two. *)
Fixpoint b2a (bs : bytes) : bytes :=
  match bs with
  | [] => []
  | [a] =>
      let a := Byte.to_N a in
      [table_b2a (a / 4); table_b2a ((a mod 4) * 16); pad; pad]%N
  | [a; b] =>
      let a := Byte.to_N a in
      let b := Byte.to_N b in
      [table_b2a (a / 4); table_b2a ((a mod 4) * 16 + b / 16);
       table_b2a ((b mod 16) * 4); pad]%N
  | a :: b :: c :: rest =>
      let a := Byte.to_N a in
      let b := Byte.to_N b in
      let c := Byte.to_N c in
      (table_b2a (a / 4) :: table_b2a ((a mod 4) * 16 + b / 16)
       :: table_b2a ((b mod 16) * 4 + c / 64) :: table_b2a (c mod 64)
       :: b2a rest)%N
  end.

(** The loop of [binascii.a2b_base64] in its default, non strict mode.
    [quad_pos] counts the digits of the current group, [leftchar] holds the
    bits not yet written, [pads] counts the padding characters seen since
    the last digit and [out] is the output so far, last byte first.
    Characters outside the alphabet are skipped; a padding sequence that
    completes a group ends the decoding; input that ends inside a group is
    an error. *)
Fixpoint a2b_loop (input : bytes) (quad_pos : nat) (leftchar : N)
    (pads : nat) (out : bytes) : result bytes :=
  match input with
  | [] =>
      match quad_pos with
      | O => Ok (rev out)
      | _ => Raise BinasciiError
      end
  | ch :: rest =>
      if Byte.eqb ch pad then
        if (2 <=? quad_pos)%nat then
          if (4 <=? quad_pos + S pads)%nat then Ok (rev out)
          else a2b_loop rest quad_pos leftchar (S pads) out
        else a2b_loop rest quad_pos leftchar pads out
      else
        match table_a2b ch with
        | None => a2b_loop rest quad_pos leftchar pads out
        | Some v =>
            match quad_pos with
            | 0%nat => a2b_loop rest 1 v 0 out
            | 1%nat =>
                a2b_loop rest 2 (v mod 16)%N 0
                  (byte_of_N (leftchar * 4 + v / 16) :: out)
            | 2%nat =>
                a2b_loop rest 3 (v mod 4)%N 0
                  (byte_of_N (leftchar * 16 + v / 4) :: out)
            | _ =>
                a2b_loop rest 0 0%N 0
                  (byte_of_N (leftchar * 64 + v) :: out)
            end
        end
  end.

Definition a2b (input : bytes) : result bytes := a2b_loop input 0 0%N 0 [].

(** [base64.b64encode(data)] *)
Definition b64encode (data : bytes) : bytes := b2a data.

(** [base64.b64decode(s)] for a [str] argument: the text is first encoded
    as ASCII, and a failure of that is reported as a [ValueError]. *)
Definition b64decode (s : string) : result bytes :=
  match str_encode_ascii s with
  | Ok bs => a2b bs
  | Raise _ => Raise ValueError
  end.

End Base64.

(** ** The WSGI environment and the imported helpers *)

(** The entries of [environ] that [idp.py] reads. [wsgi_input] is the text
    that [get_post(environ)] returns when the body can be read. *)
Record Environ : Type := mkEnviron {
  PATH_INFO : option string;
  QUERY_STRING : option string;
  REQUEST_METHOD : option string;
  HTTP_COOKIE : option string;
  HTTP_AUTHORIZATION : option string;
  wsgi_input : string
}.

(** The functions of the Python standard library that the module calls and
    that are kept abstract. [parse_qs] never returns an empty list of values,
    so a parsed field is a first value and the remaining ones. *)
Record StdLib : Type := mkStdLib {
  (* urllib.parse.parse_qs *)
  parse_qs : string -> gmap string (string * list string);
  (* SimpleCookie(kaka).get(name, None), and the morsel's .value; parsing
     the header raises CookieError when it holds an illegal key *)
  morsel_value : string -> string -> result (option string);
  (* tuple(cookie.output().split(": ", 1)) for the one morsel name=value
     with the given path and expiry *)
  cookie_output : string -> string -> string -> string -> string * string;
  (* time_util.instant(tformat) *)
  instant : string;
  (* time_util.in_a_while(minutes=n, format=tformat) *)
  in_a_while : nat -> string;
  (* time.strftime(tformat, time.gmtime(0)) *)
  epoch : string;
  (* hashlib.sha1(b).hexdigest() *)
  sha1_hexdigest : bytes -> string;
  (* os.path.realpath *)
  realpath : string -> string;
  (* open(path).read(); None when the file cannot be opened *)
  read_file : string -> option string;
  (* os.path.dirname(os.path.abspath(__file__)) *)
  module_dir : string
}.

(** Python truth value of a [str] and of an optional [str]. *)
Definition str_truthy (s : string) : bool :=
  match s with EmptyString => false | _ => true end.

Definition opt_truthy (o : option string) : bool :=
  match o with Some s => str_truthy s | None => false end.

(** ** Cookie handling *)

(** The argument of [_expiration]: ["now"], ["dawn"] or a number of
    minutes. *)
Inductive timeout : Type :=
| Now
| Dawn
| Minutes (n : nat).

(** [_expiration(timeout)] with the default format. *)
Definition _expiration (lib : StdLib) (t : timeout) : string :=
  match t with
  | Now => instant lib
  | Dawn => epoch lib
  | Minutes n => in_a_while lib n
  end.

(** The value that [set_cookie] stores in the cookie: [":".join(args)],
    encoded as ASCII, then base64, then decoded as ASCII. *)
Definition cookie_payload (args : list string) : result string :=
  data <- str_encode_ascii (str_join ":" args) ;;
  bytes_decode_ascii (Base64.b64encode data).

(** [set_cookie(name, _, *args)]; the expiry is [_expiration(5)]. *)
Definition set_cookie (lib : StdLib) (name : string) (args : list string)
  : result (string * string) :=
  data64 <- cookie_payload args ;;
  Ok (cookie_output lib name data64 "/" (_expiration lib (Minutes 5))).

(** The [try] block of [info_from_cookie]. *)
Definition info_from_morsel (c : Cache) (value : string)
  : result (option string * option string) :=
  data <- Base64.b64decode value ;;
  data <- bytes_decode_ascii data ;;
  kr <- unpack2 (str_split1 ":" data) ;;
  user <- getitem (uid2user c) (fst kr) ;;
  Ok (Some user, Some (snd kr)).

(** [info_from_cookie(kaka)]; the handler is [except (KeyError, TypeError)].
    [SimpleCookie(kaka)] stands before the [try], so what it raises leaves
    the function. *)
Definition info_from_cookie (lib : StdLib) (c : Cache) (kaka : option string)
  : result (option string * option string) :=
  match kaka with
  | Some k =>
      if str_truthy k then
        match morsel_value lib k "idpauthn" with
        | Raise e => Raise e
        | Ok (Some value) =>
            match info_from_morsel c value with
            | Ok r => Ok r
            | Raise e =>
                if is_KeyError e || is_TypeError e then Ok (None, None)
                else Raise e
            end
        | Ok None => Ok (None, None)
        end
      else Ok (None, None)
  | None => Ok (None, None)
  end.

(** [delete_cookie(environ, name)]; the expiry is [_expiration("dawn")].
    The header is parsed here only for the log. The handlers that call
    [delete_cookie] run under [application], which has parsed the same
    header in [info_from_cookie] before it calls them. *)
Definition delete_cookie (lib : StdLib) (env : Environ) (name : string)
  : option (string * string) :=
  let kaka := default "" (HTTP_COOKIE env) in
  if str_truthy kaka
  then Some (cookie_output lib name "" "/" (_expiration lib Dawn))
  else None.

(** ** SAML messages and the pysaml2 server object *)

Inductive Binding : Type :=
| BINDING_HTTP_REDIRECT
| BINDING_HTTP_POST
| BINDING_HTTP_ARTIFACT
| BINDING_SOAP
| BINDING_PAOS
| BINDING_URI.

(** The attributes of a parsed [AuthnRequest] that the module reads. *)
Record AuthnRequest : Type := mkAuthnRequest {
  issuer_text : string;
  force_authn : option string;
  requested_authn_context : option string
}.

(** What [IDP.parse_authn_request] returns. *)
Record ReqInfo : Type := mkReqInfo { message : AuthnRequest }.

(** The values found in a request envelope ([saml_msg]): the decoded fields
    are [str]; [SSO] adds the parsed request under the key [req_info]. *)
Inductive value : Type :=
| VNone
| VStr (s : string)
| VReq (r : ReqInfo).

Abbreviation Envelope := (gmap string value).

Definition value_truthy (v : value) : bool :=
  match v with
  | VNone => false
  | VStr s => str_truthy s
  | VReq _ => true
  end.

(** The name identifier of a logout request is kept opaque. *)
Record LogoutRequest : Type := mkLogoutRequest {
  name_id : option string
}.

(** What [apply_binding] returns: [hinfo["headers"]] and [hinfo["data"]]. *)
Record HttpArgs : Type := mkHttpArgs {
  headers : list (string * string);
  data : string
}.

(** The methods of the pysaml2 server object [IdpServerSettings_.IDP], of its
    [metadata], [ident] and [session_db] members, and the functions imported
    from [saml2.sigver], as far as [SSO.redirect], [SSO.post],
    [Service.operation] and [SLO.do] call them. Signature verification and
    the certificate lookup are total. *)
Record IdpServer : Type := mkIdpServer {
  parse_authn_request : value -> Binding -> result (option ReqInfo);
  (* IDP.metadata.certs(issuer, "any", "signing"): (name, certificate) *)
  metadata_certs : string -> list (string * string);
  (* verify_redirect_signature(saml_msg, IDP.sec.sec_backend, cert) *)
  verify_redirect_signature : Envelope -> string -> bool;
  encrypt_cert_from_item : AuthnRequest -> option string;
  parse_logout_request : value -> Binding -> result LogoutRequest;
  (* IDP.ident.find_local_id(name_id) *)
  find_local_id : string -> option string;
  (* IDP.session_db.remove_authn_statements(name_id) *)
  remove_authn_statements : string -> result unit;
  (* f"{IDP.create_logout_response(msg, [binding])}" *)
  create_logout_response : LogoutRequest -> Binding -> string;
  (* IDP.pick_binding("single_logout_service", [binding], "spsso", req_info) *)
  pick_binding_slo : Binding -> LogoutRequest -> result (Binding * string);
  (* IDP.apply_binding(binding, resp, destination, relay_state, response=..) *)
  apply_binding : Binding -> string -> string -> value -> bool -> result HttpArgs
}.

(** ** Mutable state *)

(** An effectful external call that a handler made. *)
Inductive event : Type :=
| RemoveAuthnStatements (name_id : string).

(** The objects a handler can change: the ticket store [IDP.ticket], the
    session cache [IDP.cache], the entry [environ["idp.authn"]], the fields
    of the service instance ([self]) and the trace of external calls. *)
Record State : Type := mkState {
  ticket : gmap string Envelope;
  cache : Cache;
  environ_idp_authn : option string;
  self_user : option string;
  self_req_info : value;
  self_response_bindings : option (list Binding);
  self_op_type : string;
  trace : list event
}.

Definition set_ticket (t : gmap string Envelope) (st : State) : State :=
  mkState t (cache st) (environ_idp_authn st) (self_user st)
    (self_req_info st) (self_response_bindings st) (self_op_type st) (trace st).

Definition set_cache (c : Cache) (st : State) : State :=
  mkState (ticket st) c (environ_idp_authn st) (self_user st)
    (self_req_info st) (self_response_bindings st) (self_op_type st) (trace st).

Definition set_idp_authn (a : option string) (st : State) : State :=
  mkState (ticket st) (cache st) a (self_user st)
    (self_req_info st) (self_response_bindings st) (self_op_type st) (trace st).

Definition set_user (u : option string) (st : State) : State :=
  mkState (ticket st) (cache st) (environ_idp_authn st) u
    (self_req_info st) (self_response_bindings st) (self_op_type st) (trace st).

Definition set_req_info (r : value) (st : State) : State :=
  mkState (ticket st) (cache st) (environ_idp_authn st) (self_user st)
    r (self_response_bindings st) (self_op_type st) (trace st).

Definition set_ecp (st : State) : State :=
  mkState (ticket st) (cache st) (environ_idp_authn st) (self_user st)
    (self_req_info st) (Some [BINDING_PAOS]) "ecp" (trace st).

Definition log_event (e : event) (st : State) : State :=
  mkState (ticket st) (cache st) (environ_idp_authn st) (self_user st)
    (self_req_info st) (self_response_bindings st) (self_op_type st)
    (trace st ++ [e]).

(** [Service.__init__] and [SSO.__init__] for a service created by
    [application] with the resolved [user]. *)
Definition new_service (t : gmap string Envelope) (c : Cache)
    (authn : option string) (user : option string) : State :=
  mkState t c authn user VNone None "" [].

(** A handler maps a state to an outcome, or an exception, and a state. *)
Definition M (A : Type) : Type := State -> result A * State.

(** ** Responses *)

(** The keyword arguments that [Service.operation] passes to [do]. *)
Record Kwargs : Type := mkKwargs {
  kw_signature : option value;
  kw_sigalg : option value;
  kw_encrypt_cert : option string;
  kw_relay_state : option value
}.

(** How a handler of a service ends: it returns a rendered response, it
    hands the request to the login form through [not_authn], or it calls the
    service's [do], which builds the protocol response (for [SSO], the
    assertion). *)
Inductive outcome : Type :=
| Return (r : response)
| NotAuthn (key : string) (requested : option string)
| Do (query : value) (binding : Binding) (kw : Kwargs).

(** ** [class Service] *)

(** [{k: v[0] for k, v in parse_qs(qs).items()}] *)
Definition first_values (lib : StdLib) (qs : string) : Envelope :=
  (fun v => VStr (fst v)) <$> parse_qs lib qs.

(** [Service.unpack_redirect] *)
Definition unpack_redirect (lib : StdLib) (env : Environ) : option Envelope :=
  match QUERY_STRING env with
  | Some _qs => Some (first_values lib _qs)
  | None => None
  end.

(** [Service.unpack_post] *)
Definition unpack_post (lib : StdLib) (env : Environ) : option Envelope :=
  Some (first_values lib (wsgi_input env)).

(** [Service.unpack_soap]. [post] is the outcome of
    [get_post(self.environ)], the function of [saml2.httputil] that reads
    the stream [environ["wsgi.input"]]: the body, or the exception that the
    read raises. The handler is [except Exception]. *)
Definition unpack_soap (post : result string) : option Envelope :=
  match post with
  | Ok query =>
      Some (<["SAMLRequest" := VStr query]> (<["RelayState" := VStr ""]> ∅))
  | Raise _ => None
  end.

(** [Service.unpack_either]; [environ["REQUEST_METHOD"]] is a subscript. *)
Definition unpack_either (lib : StdLib) (env : Environ)
  : result (option Envelope) :=
  match REQUEST_METHOD env with
  | None => Raise KeyError
  | Some m =>
      if String.eqb m "GET" then Ok (unpack_redirect lib env)
      else if String.eqb m "POST" then Ok (unpack_post lib env)
      else Ok None
  end.

(** Python truth value of a dict. *)
Definition dict_truthy {V} (d : gmap string V) : bool :=
  match map_to_list d with
  | [] => false
  | _ => true
  end.

(** [k in d] *)
Definition contains {V} (d : gmap string V) (k : string) : bool :=
  match d !! k with
  | Some _ => true
  | None => false
  end.

(** [saml_msg["req_info"].message] *)
Definition value_message (v : value) : result AuthnRequest :=
  match v with
  | VReq r => Ok (message r)
  | _ => Raise AttributeError
  end.

(** [Service.operation(saml_msg, binding)]. The three [try] blocks catch
    [KeyError] only. *)
Definition operation (idp : IdpServer) (saml_msg : option Envelope)
    (binding : Binding) : M outcome := fun st =>
  match saml_msg with
  | None => (Ok (Return (BadRequest "Error parsing request or no request")), st)
  | Some msg =>
      if negb (dict_truthy msg && contains msg "SAMLRequest") then
        (Ok (Return (BadRequest "Error parsing request or no request")), st)
      else
        (* "Signature" in saml_msg *)
        let signed :=
          match msg !! "Signature" with
          | Some sig =>
              match msg !! "SigAlg" with
              | Some alg => inl (Some sig, Some alg)
              | None =>
                  inr (BadRequest "Signature Algorithm specification is missing")
              end
          | None => inl (None, None)
          end in
        match signed with
        | inr resp => (Ok (Return resp), st)
        | inl (sig, alg) =>
            let enc :=
              match msg !! "req_info" with
              | Some ri =>
                  m <- value_message ri ;; Ok (encrypt_cert_from_item idp m)
              | None => Ok None
              end in
            match enc with
            | Raise e => (Raise e, st)
            | Ok cert =>
                match msg !! "SAMLRequest" with
                | Some query =>
                    (Ok (Do query binding
                           (mkKwargs sig alg cert (msg !! "RelayState"))), st)
                | None => (Raise KeyError, st)
                end
            end
        end
  end.

(** [Service.redirect], [Service.post], [Service.soap] and [Service.uri] *)
Definition Service_redirect (idp : IdpServer) (lib : StdLib) (env : Environ)
  : M outcome :=
  operation idp (unpack_redirect lib env) BINDING_HTTP_REDIRECT.

Definition Service_post (idp : IdpServer) (lib : StdLib) (env : Environ)
  : M outcome :=
  operation idp (unpack_post lib env) BINDING_HTTP_POST.

Definition Service_soap (idp : IdpServer) (post : result string)
  : M outcome :=
  operation idp (unpack_soap post) BINDING_SOAP.

Definition Service_uri (idp : IdpServer) (lib : StdLib) (env : Environ)
  : M outcome := fun st =>
  match unpack_either lib env with
  | Ok _dict => operation idp _dict BINDING_SOAP st
  | Raise e => (Raise e, st)
  end.

(** ** [class SSO] *)

(** [s.encode()]: UTF-8. A character of a [string] is a code point below
    256; those from 128 on take two bytes. *)
Definition utf8_char (c : ascii) : bytes :=
  let n := N_of_ascii c in
  if (n <? 128)%N then [byte_of_ascii c]
  else [Base64.byte_of_N (192 + n / 64); Base64.byte_of_N (128 + n mod 64)]%N.

Fixpoint str_encode_utf8 (s : string) : bytes :=
  match s with
  | EmptyString => []
  | String c r => utf8_char c ++ str_encode_utf8 r
  end.

(** [s.lower()] on the letters A to Z. *)
Definition lower_char (c : ascii) : ascii :=
  let n := N_of_ascii c in
  if ((65 <=? n) && (n <=? 90))%N then ascii_of_N (n + 32) else c.

Fixpoint str_lower (s : string) : string :=
  match s with
  | EmptyString => EmptyString
  | String c r => String (lower_char c) (str_lower r)
  end.

(** [saml_msg["SAMLRequest"].encode()] *)
Definition value_encode (v : value) : result bytes :=
  match v with
  | VStr s => Ok (str_encode_utf8 s)
  | _ => Raise AttributeError
  end.

(** The key [SSO._store_request] files [saml_msg] under. *)
Definition ticket_key (lib : StdLib) (saml_msg : Envelope) : result string :=
  req <- getitem saml_msg "SAMLRequest" ;;
  raw <- value_encode req ;;
  Ok (sha1_hexdigest lib raw).

(** [SSO._store_request(saml_msg)] *)
Definition _store_request (lib : StdLib) (saml_msg : Envelope) : M string :=
  fun st =>
  match ticket_key lib saml_msg with
  | Ok key => (Ok key, set_ticket (<[key := saml_msg]> (ticket st)) st)
  | Raise e => (Raise e, st)
  end.

(** The first three statements of the [try] block of [SSO.redirect] and
    [SSO.post]: [IDP.ticket[saml_msg["key"]]] and its [req_info]. A [KeyError]
    in the second or third leaves [saml_msg] bound to what was read so far. *)
Inductive ticket_read : Type :=
| TicketHit (key : string) (stored : Envelope) (req_info : value)
| TicketMiss (saml_msg : Envelope).

Definition read_ticket (t : gmap string Envelope) (saml_msg : Envelope)
  : ticket_read :=
  match saml_msg !! "key" with
  | Some (VStr _key) =>
      match t !! _key with
      | Some stored =>
          match stored !! "req_info" with
          | Some ri => TicketHit _key stored ri
          | None => TicketMiss stored
          end
      | None => TicketMiss saml_msg
      end
  | _ => TicketMiss saml_msg
  end.

(** The loop over [_certs] in [SSO.redirect]. *)
Fixpoint verified_ok (idp : IdpServer) (saml_msg : Envelope)
    (_certs : list (string * string)) : bool :=
  match _certs with
  | [] => false
  | (cert_name, cert) :: rest =>
      if verify_redirect_signature idp saml_msg cert then true
      else verified_ok idp saml_msg rest
  end.

(** [_req.force_authn is not None and _req.force_authn.lower() == "true"] *)
Definition forces_authn (_req : AuthnRequest) : bool :=
  match force_authn _req with
  | Some f => String.eqb (str_lower f) "true"
  | None => false
  end.

(** [saml_msg["req_info"] = self.req_info], [self._store_request(saml_msg)]
    and [self.not_authn(key, _req.requested_authn_context)]. *)
Definition store_and_login (lib : StdLib) (saml_msg : Envelope)
    (_req : AuthnRequest) : M outcome := fun st =>
  let saml_msg := <["req_info" := self_req_info st]> saml_msg in
  match _store_request lib saml_msg st with
  | (Ok key, st') => (Ok (NotAuthn key (requested_authn_context _req)), st')
  | (Raise e, st') => (Raise e, st')
  end.

(** What [SSO.redirect] answers on a failed signature check. *)
Definition sigfail : response :=
  BadRequest "Message signature verification failure".

(** The end of the [except KeyError] branch of [SSO.redirect], from
    [if self.user:] on. *)
Definition redirect_proceed (idp : IdpServer) (lib : StdLib)
    (saml_msg : Envelope) (ri : ReqInfo) : M outcome := fun st =>
  let _req := message ri in
  if opt_truthy (self_user st) then
    if forces_authn _req then store_and_login lib saml_msg _req st
    else
      operation idp (Some (<["req_info" := self_req_info st]> saml_msg))
        BINDING_HTTP_REDIRECT st
  else store_and_login lib saml_msg _req st.

(** The [except KeyError] branch of [SSO.redirect]. *)
Definition redirect_no_ticket (idp : IdpServer) (lib : StdLib)
    (saml_msg : Envelope) : M outcome := fun st =>
  match saml_msg !! "SAMLRequest" with
  | None => (Ok (Return sigfail), st)
  | Some query =>
      match parse_authn_request idp query BINDING_HTTP_REDIRECT with
      | Raise e =>
          if is_KeyError e then (Ok (Return sigfail), st) else (Raise e, st)
      | Ok None =>
          (Ok (Return (BadRequest "Message parsing failed")),
           set_req_info VNone st)
      | Ok (Some ri) =>
          let st := set_req_info (VReq ri) st in
          let _req := message ri in
          if contains saml_msg "SigAlg" && contains saml_msg "Signature"
             && negb (verified_ok idp saml_msg
                        (metadata_certs idp (issuer_text _req)))
          then (Ok (Return sigfail), st)
          else redirect_proceed idp lib saml_msg ri st
      end
  end.

(** [SSO.redirect]. Without a query string [unpack_redirect] returns [None],
    and subscripting it is a [TypeError]. *)
Definition SSO_redirect (idp : IdpServer) (lib : StdLib) (env : Environ)
  : M outcome := fun st =>
  match unpack_redirect lib env with
  | None => (Raise TypeError, st)
  | Some saml_msg =>
      match read_ticket (ticket st) saml_msg with
      | TicketHit _key stored ri =>
          let st := set_req_info ri st in
          let st := set_ticket (delete _key (ticket st)) st in
          operation idp (Some stored) BINDING_HTTP_REDIRECT st
      | TicketMiss saml_msg => redirect_no_ticket idp lib saml_msg st
      end
  end.

(** The [except KeyError] branch of [SSO.post]: no handler surrounds the
    subscript [saml_msg["SAMLRequest"]]. *)
Definition post_no_ticket (idp : IdpServer) (lib : StdLib)
    (saml_msg : Envelope) : M outcome := fun st =>
  match saml_msg !! "SAMLRequest" with
  | None => (Raise KeyError, st)
  | Some query =>
      match parse_authn_request idp query BINDING_HTTP_POST with
      | Raise e => (Raise e, st)
      | Ok None => (Raise AttributeError, set_req_info VNone st)
      | Ok (Some ri) =>
          let st := set_req_info (VReq ri) st in
          let _req := message ri in
          if opt_truthy (self_user st) then
            if forces_authn _req then store_and_login lib saml_msg _req st
            else operation idp (Some saml_msg) BINDING_HTTP_POST st
          else store_and_login lib saml_msg _req st
      end
  end.

(** [SSO.post] *)
Definition SSO_post (idp : IdpServer) (lib : StdLib) (env : Environ)
  : M outcome := fun st =>
  match unpack_either lib env with
  | Raise e => (Raise e, st)
  | Ok None => (Raise TypeError, st)
  | Ok (Some saml_msg) =>
      match read_ticket (ticket st) saml_msg with
      | TicketHit _key stored ri =>
          let st := set_req_info ri st in
          let st := set_ticket (delete _key (ticket st)) st in
          operation idp (Some stored) BINDING_HTTP_POST st
      | TicketMiss saml_msg => post_no_ticket idp lib saml_msg st
      end
  end.

(** [b.split(sep)] for [bytes] [b] and a [str] separator: Python 3 does not
    mix the two types and raises a [TypeError]. *)
Definition bytes_split_str (b : bytes) (sep : string) : result (list bytes) :=
  Raise TypeError.

(** [s.startswith(p)] and [s[n:]] *)
Definition startswith (s p : string) : bool := String.prefix p s.

Fixpoint str_drop (n : nat) (s : string) : string :=
  match n, s with
  | O, _ => s
  | S n', String _ r => str_drop n' r
  | S _, EmptyString => EmptyString
  end.

(** The [try] block of [SSO.ecp] up to the unpacking of the credentials.
    [base64.b64decode] returns [bytes], so the split that follows raises a
    [TypeError]; the comparison with [PASSWD] and the two assignments after
    it are not reached. The result is the value of [resp], or the exception
    that leaves the block. *)
Definition ecp_authorize (env : Environ) : result (option response) :=
  let body :=
    authz_info <- match HTTP_AUTHORIZATION env with
                  | Some a => Ok a
                  | None => Raise KeyError
                  end ;;
    if startswith authz_info "Basic " then
      match Base64.b64decode (str_drop 6 authz_info) with
      | Raise e =>
          if is_TypeError e then Ok (Some (Unauthorized "")) else Raise e
      | Ok _info =>
          match (parts <- bytes_split_str _info ":" ;; unpack2 parts) with
          | Raise e =>
              if is_ValueError e then Ok (Some (Unauthorized "")) else Raise e
          | Ok _ => Ok None
          end
      end
    else Ok (Some (Unauthorized "")) in
  match body with
  | Raise e => if is_KeyError e then Ok (Some (Unauthorized "")) else Raise e
  | Ok r => Ok r
  end.

(** [SSO.ecp]; [post] is the outcome of [get_post(self.environ)], as in
    [unpack_soap]. *)
Definition SSO_ecp (idp : IdpServer) (env : Environ) (post : result string)
  : M outcome := fun st =>
  match ecp_authorize env with
  | Raise e => (Raise e, st)
  | Ok (Some resp) => (Ok (Return resp), st)
  | Ok None => operation idp (unpack_soap post) BINDING_SOAP (set_ecp st)
  end.

(** ** Authentication: [PASSWD], [verify_username_and_password], [do_verify] *)

Definition PASSWD : gmap string string :=
  list_to_map
    [("testuser", "qwerty"); ("roland", "dianakra"); ("babs", "howes");
     ("upper", "crust"); ("testuser2", "abcd1234"); ("testuser3", "ABCD1234")].

(** [verify_username_and_password(dic)] *)
Definition verify_username_and_password
    (dic : gmap string (string * list string)) : result (bool * option string) :=
  username <- getitem dic "login" ;;
  password <- getitem dic "password" ;;
  stored <- getitem PASSWD (fst username) ;;
  if String.eqb stored (fst password) then Ok (true, Some (fst username))
  else Ok (false, None).

(** [do_verify(environ, start_response, _)]. [uid] is the value that
    [rndstr(24)] returns. The request body reaches [parse_qs] decoded as
    ASCII. *)
Definition do_verify (lib : StdLib) (env : Environ) (uid : string)
  : M response := fun st =>
  match str_encode_ascii (wsgi_input env) with
  | Raise _ => (Raise UnicodeDecodeError, st)
  | Ok _ =>
      let query := parse_qs lib (wsgi_input env) in
      let checked :=
        match verify_username_and_password query with
        | Ok r => Ok r
        | Raise e => if is_KeyError e then Ok (false, None) else Raise e
        end in
      match checked with
      | Raise e => (Raise e, st)
      | Ok (true, Some user) =>
          let st := set_cache (cache_register (cache st) user uid) st in
          let resp :=
            ref <- getitem query "authn_reference" ;;
            kaka <- set_cookie lib "idpauthn" [uid; fst ref] ;;
            ruri <- getitem query "redirect_uri" ;;
            key <- getitem query "key" ;;
            Ok (Redirect (fst ruri +:+ "?id=" +:+ uid +:+ "&key=" +:+ fst key)
                  [kaka]) in
          (resp, st)
      | Ok _ => (Ok (Unauthorized "Unknown user or wrong password"), st)
      end
  end.

(** ** [class SLO] *)

Definition Binding_eqb (a b : Binding) : bool :=
  match a, b with
  | BINDING_HTTP_REDIRECT, BINDING_HTTP_REDIRECT
  | BINDING_HTTP_POST, BINDING_HTTP_POST
  | BINDING_HTTP_ARTIFACT, BINDING_HTTP_ARTIFACT
  | BINDING_SOAP, BINDING_SOAP
  | BINDING_PAOS, BINDING_PAOS
  | BINDING_URI, BINDING_URI => true
  | _, _ => false
  end.

(** The text of an exception, [f"{exc}"]. *)
Definition exn_text (e : exn) : string :=
  match e with
  | KeyError => "KeyError"
  | TypeError => "TypeError"
  | ValueError => "ValueError"
  | BinasciiError => "binascii.Error"
  | UnicodeEncodeError => "UnicodeEncodeError"
  | UnicodeDecodeError => "UnicodeDecodeError"
  | AttributeError => "AttributeError"
  | IndexError => "IndexError"
  | CookieError => "CookieError"
  end.

(** [if lid in cache.user2uid: ...] for the result of [find_local_id]. *)
Definition cache_remove_lid (c : Cache) (lid : option string) : Cache :=
  match lid with
  | Some l => cache_remove c l
  | None => c
  end.

(** The first header named [location], compared in lower case. *)
Fixpoint find_location (hs : list (string * string)) : option string :=
  match hs with
  | [] => None
  | (key, v) :: rest =>
      if String.eqb (str_lower key) "location" then Some v
      else find_location rest
  end.

(** The second half of [SLO.do]: building and rendering the response. *)
Definition slo_respond (idp : IdpServer) (lib : StdLib) (env : Environ)
    (msg : LogoutRequest) (binding : Binding) (relay_state : value)
  : result response :=
  let resp := create_logout_response idp msg binding in
  picked <- (if Binding_eqb binding BINDING_SOAP then Ok (binding, "", false)
             else bd <- pick_binding_slo idp binding msg ;;
                  Ok (fst bd, snd bd, true)) ;;
  let '(binding, destination, is_response) := picked in
  match apply_binding idp binding resp destination relay_state is_response with
  | Raise e => Ok (ServiceError (exn_text e))
  | Ok hinfo =>
      let hs :=
        match delete_cookie lib env "idpauthn" with
        | Some delco => headers hinfo ++ [delco]
        | None => headers hinfo
        end in
      if Binding_eqb binding BINDING_HTTP_REDIRECT then
        match find_location hs with
        | Some v => Ok (Redirect v hs)
        | None => Ok (ServiceError "missing Location header")
        end
      else Ok (Response (data hinfo) hs)
  end.

(** [SLO.do(request, binding, relay_state)]. The handler of the statement
    removal is [except KeyError]; it calls [ServiceError] with two
    positional arguments, the format string ["Unknown session: %s"] and the
    exception. *)
Definition SLO_do (idp : IdpServer) (lib : StdLib) (env : Environ)
    (request : value) (binding : Binding) (relay_state : value)
  : M response := fun st =>
  match parse_logout_request idp request binding with
  | Raise exc => (Ok (BadRequest (exn_text exc)), st)
  | Ok msg =>
      match name_id msg with
      | Some nid =>
          let lid := find_local_id idp nid in
          let st := set_cache (cache_remove_lid (cache st) lid) st in
          let st := log_event (RemoveAuthnStatements nid) st in
          match remove_authn_statements idp nid with
          | Raise exc =>
              if is_KeyError exc then
                (call_positional ServiceError "Unknown session: %s" [exc], st)
              else (Raise exc, st)
          | Ok _ => (slo_respond idp lib env msg binding relay_state, st)
          end
      | None => (slo_respond idp lib env msg binding relay_state, st)
      end
  end.

(** ** URL patterns *)

(** The fragment of regular expressions that the URL tables use: a literal
    character, an optional character ([c?]), [.*] (a group around it does
    not change what matches) and the anchor [$]. *)
Inductive ritem : Type :=
| RChar (c : ascii)
| ROpt (c : ascii)
| RDotStar
| REnd.

Definition newline : ascii := ascii_of_nat 10.

(** [$] matches at the end of the text and before a final newline. *)
Definition at_end (s : string) : bool :=
  match s with
  | EmptyString => true
  | String c EmptyString => Ascii.eqb c newline
  | _ => false
  end.

(** Whether the pattern matches a prefix of [s]. [.] is any character but
    a newline. *)
Fixpoint match_here (re : list ritem) (s : string) {struct re} : bool :=
  match re with
  | [] => true
  | RChar c :: re' =>
      match s with
      | String d s' => Ascii.eqb c d && match_here re' s'
      | EmptyString => false
      end
  | ROpt c :: re' =>
      match s with
      | String d s' => Ascii.eqb c d && match_here re' s'
      | EmptyString => false
      end || match_here re' s
  | RDotStar :: re' =>
      (fix star (s : string) : bool :=
         match_here re' s
         || match s with
            | String d s' => negb (Ascii.eqb d newline) && star s'
            | EmptyString => false
            end) s
  | REnd :: re' => at_end s && match_here re' s
  end.

(** [re.search(regex, path) is not None] *)
Fixpoint re_search (re : list ritem) (s : string) : bool :=
  match_here re s
  || match s with
     | String _ s' => re_search re s'
     | EmptyString => false
     end.

Fixpoint lit (s : string) : list ritem :=
  match s with
  | EmptyString => []
  | String c r => RChar c :: lit r
  end.

(** The two shapes of the table: the text [s] followed by [$], and the text
    [s] followed by a slash, a group of [.*] and [$]. *)
Definition exact (s : string) : list ritem := lit s ++ [REnd].
Definition below (s : string) : list ritem := lit s ++ [RChar "/"; RDotStar; REnd].

Inductive service : Type := SSO | SLO | AIDR | ARS | NMI | NIM | AQS | ATTR.

Inductive entry : Type :=
| m_post | m_redirect | m_artifact | m_soap | m_uri | m_ecp.

Inductive callback : Type :=
| Method (cls : service) (func : entry)
| Function_do_verify.

Definition AUTHN_URLS : list (list ritem * callback) :=
  [ (exact "sso/post", Method SSO m_post);
    (below "sso/post", Method SSO m_post);
    (exact "sso/redirect", Method SSO m_redirect);
    (below "sso/redirect", Method SSO m_redirect);
    (exact "sso/art", Method SSO m_artifact);
    (below "sso/art", Method SSO m_artifact);
    (exact "slo/redirect", Method SLO m_redirect);
    (below "slo/redirect", Method SLO m_redirect);
    (exact "slo/post", Method SLO m_post);
    (below "slo/post", Method SLO m_post);
    (exact "slo/soap", Method SLO m_soap);
    (below "slo/soap", Method SLO m_soap);
    (exact "airs", Method AIDR m_uri);
    (exact "ars", Method ARS m_soap);
    (exact "mni/post", Method NMI m_post);
    (below "mni/post", Method NMI m_post);
    (exact "mni/redirect", Method NMI m_redirect);
    (below "mni/redirect", Method NMI m_redirect);
    (exact "mni/art", Method NMI m_artifact);
    (below "mni/art", Method NMI m_artifact);
    (exact "mni/soap", Method NMI m_soap);
    (below "mni/soap", Method NMI m_soap);
    (exact "nim", Method NIM m_soap);
    (below "nim", Method NIM m_soap);
    (exact "aqs", Method AQS m_soap);
    (exact "attr", Method ATTR m_soap) ].

(** The pattern of [do_verify] is the text verif, an optional y, a group of
    [.*] and [$]. *)
Definition NON_AUTHN_URLS : list (list ritem * callback) :=
  [ (lit "verif" ++ [ROpt "y"; RDotStar; REnd], Function_do_verify);
    (exact "sso/ecp", Method SSO m_ecp) ].

(** The loop over [url_patterns]: the callback of the first match. *)
Fixpoint first_match (url_patterns : list (list ritem * callback))
    (path : string) : option callback :=
  match url_patterns with
  | [] => None
  | (regex, cb) :: rest =>
      if re_search regex path then Some cb else first_match rest path
  end.

(** ** [application] *)

(** [s.lstrip("/")] *)
Fixpoint lstrip_slash (s : string) : string :=
  match s with
  | String c r => if Ascii.eqb c "/" then lstrip_slash r else s
  | EmptyString => s
  end.

(** The user that [application] resolves and the new value of
    [environ["idp.authn"]], if it is assigned. [broker] is the table behind
    [AUTHN_BROKER[authn_ref]]. The query string is read in the [else] branch
    of [if kaka:] only. *)
Definition resolve_user (lib : StdLib) (broker : gmap string string)
    (c : Cache) (env : Environ) : result (option string * option string) :=
  if opt_truthy (HTTP_COOKIE env) then
    ua <- info_from_cookie lib c (HTTP_COOKIE env) ;;
    if opt_truthy (snd ua) then
      method <- getitem broker (default "" (snd ua)) ;;
      Ok (fst ua, Some method)
    else Ok (fst ua, None)
  else
    match QUERY_STRING env with
    | Some qs =>
        match parse_qs lib qs !! "id" with
        | Some i => Ok (uid2user c !! fst i, None)
        | None => Ok (None, None)
        end
    | None => Ok (None, None)
    end.

(** Where [application] sends a request. *)
Inductive routed : Type :=
| ToMetadata
| ToCallback (cb : callback) (user : option string) (authn : option string)
| ToStaticfile
| ToNotFound.

(** [application(environ, start_response)] up to the call of the handler. *)
Definition application (lib : StdLib) (broker : gmap string string)
    (c : Cache) (env : Environ) : result routed :=
  let path := lstrip_slash (default "" (PATH_INFO env)) in
  if String.eqb path "idp.xml" then Ok ToMetadata
  else
    ua <- resolve_user lib broker c env ;;
    let user := fst ua in
    let url_patterns :=
      if negb (opt_truthy user) then NON_AUTHN_URLS ++ AUTHN_URLS
      else AUTHN_URLS in
    match first_match url_patterns path with
    | Some cb => Ok (ToCallback cb user (snd ua))
    | None =>
        if re_search (lit "static/" ++ [RDotStar]) path then Ok ToStaticfile
        else Ok ToNotFound
    end.


(** ** [staticfile] *)

(** [staticfile(environ, start_response)]; [args_path] is
    [IdpServerSettings_.args.path]. The handler of the [try] block reads
    [ex.message], which an exception of Python 3 does not have. *)
Definition staticfile (lib : StdLib) (args_path : string) (env : Environ)
  : result response :=
  let path := if (String.length args_path =? 0)%nat then module_dir lib
              else args_path in
  let path := if String.eqb (str_drop (String.length path - 1) path) "/"
              then path else path +:+ "/" in
  let path := path +:+ lstrip_slash (default "" (PATH_INFO env)) in
  let path := realpath lib path in
  if negb (startswith path args_path) then Ok (Unauthorized "")
  else
    match read_file lib path with
    | Some text => Ok (Response text [("Content-Type", "text/xml")])
    | None => Raise AttributeError
    end.

(** A lexical [os.path.realpath] for an absolute path on a file system
    without symbolic links: empty and [.] components are dropped, [..]
    removes the component before it. *)
Fixpoint split_slash (s : string) (cur : string) : list string :=
  match s with
  | EmptyString => [cur]
  | String c r =>
      if Ascii.eqb c "/" then cur :: split_slash r EmptyString
      else split_slash r (cur +:+ String c EmptyString)
  end.

Fixpoint resolve_components (comps : list string) (stack : list string)
  : list string :=
  match comps with
  | [] => rev stack
  | comp :: rest =>
      if String.eqb comp "" || String.eqb comp "." then
        resolve_components rest stack
      else if String.eqb comp ".." then resolve_components rest (tail stack)
      else resolve_components rest (comp :: stack)
  end.

Definition normpath (p : string) : string :=
  match resolve_components (split_slash p EmptyString) [] with
  | [] => "/"
  | comps => String.concat "" (map (fun comp => "/" +:+ comp) comps)
  end.

(** A resolved path lies in the directory [root] when it is [root] itself
    or continues it after a separator. *)
Definition inside_root (root path : string) : bool :=
  String.eqb path root || startswith path (root +:+ "/").

(** ** Sequences of cache updates *)

(** The two ways the module changes the session cache: a successful
    [do_verify] and the removal of [SLO.do]. *)
Inductive cache_op : Type :=
| OpRegister (user uid : string)
| OpRemove (lid : string).

Definition apply_op (c : Cache) (op : cache_op) : Cache :=
  match op with
  | OpRegister user uid => cache_register c user uid
  | OpRemove lid => cache_remove c lid
  end.

Definition run_ops (c : Cache) (ops : list cache_op) : Cache :=
  fold_left apply_op ops c.

(** Whether [op] registers a user under the identifier [s]. *)
Definition mints (s : string) (op : cache_op) : bool :=
  match op with
  | OpRegister _ uid => String.eqb uid s
  | OpRemove _ => false
  end.

(** [s] resolves to [u] although no user's current mapping is [s]. *)
Definition stale (c : Cache) (s u : string) : Prop :=
  uid2user c !! s = Some u /\ forall u', user2uid c !! u' <> Some s.

(** ** A concrete deployment, for the examples *)

Module Example.

(** The body that the login form posts. *)
Definition login_form : string :=
  "login=testuser&password=qwerty&key=k1" +:+
  "&redirect_uri=https://idp.example/sso/redirect" +:+
  "&authn_reference=ref-password".

(** A [parse_qs] that knows the query strings of the examples. *)
Definition parse_qs (qs : string) : gmap string (string * list string) :=
  if String.eqb qs "key=k1&SAMLRequest=req&Signature=forged&SigAlg=rsa-sha1"
  then list_to_map [("key", ("k1", [])); ("SAMLRequest", ("req", []));
                    ("Signature", ("forged", []));
                    ("SigAlg", ("rsa-sha1", []))]
  else if String.eqb qs "SAMLRequest=req&Signature=cert2&SigAlg=rsa-sha1"
  then list_to_map [("SAMLRequest", ("req", []));
                    ("Signature", ("cert2", []));
                    ("SigAlg", ("rsa-sha1", []))]
  else if String.eqb qs "key=k1"
  then list_to_map [("key", ("k1", []))]
  else if String.eqb qs "id=uid1"
  then list_to_map [("id", ("uid1", []))]
  else if String.eqb qs login_form
  then list_to_map [("login", ("testuser", [])); ("password", ("qwerty", []));
                    ("key", ("k1", []));
                    ("redirect_uri", ("https://idp.example/sso/redirect", []));
                    ("authn_reference", ("ref-password", []))]
  else ∅.

(** A cookie header of the form [name=value]. A name with the character
    [@] is an illegal key. *)
Fixpoint illegal_key (kaka : string) : bool :=
  match kaka with
  | EmptyString => false
  | String c rest =>
      if Ascii.eqb c "=" then false
      else if Ascii.eqb c "@" then true
      else illegal_key rest
  end.

Definition morsel_value (kaka name : string) : result (option string) :=
  if illegal_key kaka then Raise CookieError
  else if String.prefix (name +:+ "=") kaka
  then Ok (Some (str_drop (String.length name + 1) kaka))
  else Ok None.

Definition cookie_output (name value path expires : string)
  : string * string :=
  ("Set-Cookie",
   name +:+ "=" +:+ value +:+ "; expires=" +:+ expires +:+ "; Path=" +:+ path).

Definition read_file (path : string) : option string :=
  if String.eqb path "/srv/idp_secret/key" then Some "PRIVATE KEY"
  else if String.eqb path "/srv/idp/static/logo.svg" then Some "<svg/>"
  else None.

Definition lib : StdLib :=
  mkStdLib parse_qs morsel_value cookie_output
    "Thu, 01-Jan-2026 00:00:00 GMT"
    (fun _ => "Thu, 01-Jan-2026 00:05:00 GMT")
    "Thu, 01-Jan-1970 00:00:00 GMT"
    (fun b => string_of_list_byte b)
    normpath read_file "/opt/mslib/msidp".

Definition authn_request : AuthnRequest := mkAuthnRequest "sp.example" None None.

(** A server whose codec parses every non-empty text, knows two signing
    certificates and accepts a signature that names the certificate. *)
Definition idp : IdpServer :=
  mkIdpServer
    (fun q _ => match q with
                | VStr EmptyString => Ok None
                | VStr _ => Ok (Some (mkReqInfo authn_request))
                | _ => Raise TypeError
                end)
    (fun _ => [("first", "cert1"); ("second", "cert2")])
    (fun msg cert => match msg !! "Signature" with
                     | Some (VStr s) => String.eqb s cert
                     | _ => false
                     end)
    (fun _ => None)
    (fun q _ => match q with
                | VStr EmptyString => Raise ValueError
                | VStr s => Ok (mkLogoutRequest (Some s))
                | _ => Raise TypeError
                end)
    (fun nid => if String.eqb nid "nid-testuser" then Some "testuser" else None)
    (fun nid => if String.eqb nid "nid-testuser" then Ok tt else Raise KeyError)
    (fun _ _ => "<LogoutResponse/>")
    (fun b _ => Ok (b, "https://sp.example/slo"))
    (fun _ resp _ _ _ => Ok (mkHttpArgs [] resp)).

Definition env (path : string) (query cookie authz : option string)
    (body : string) : Environ :=
  mkEnviron (Some path) query (Some (if String.eqb body "" then "GET" else "POST"))
    cookie authz body.

(** A ticket stored earlier under the key [k1]. *)
Definition stored : Envelope :=
  list_to_map [("SAMLRequest", VStr "req");
               ("req_info", VReq (mkReqInfo authn_request))].

Definition tickets : gmap string Envelope := <["k1" := stored]> ∅.

(** A cache in which [testuser] is logged in under [uid1]. *)
Definition logged_in : Cache := cache_register Cache_init "testuser" "uid1".

Definition broker : gmap string string :=
  list_to_map [("ref-password", "username_password_authn")].

End Example.

(** ** The rest of [class Service] and [class SSO] *)

(** The exceptions of pysaml2 that [SSO.do] and [SSO.verify_request] name in
    their handlers, beside the built-in ones. *)
Inductive saml_exn : Type :=
| UnknownPrincipal
| UnsupportedBinding
| Builtin (e : exn).

Inductive sresult (A : Type) : Type :=
| SOk (a : A)
| SRaise (e : saml_exn).
Arguments SOk {A} a.
Arguments SRaise {A} e.

Definition lift {A} (r : result A) : sresult A :=
  match r with
  | Ok a => SOk a
  | Raise e => SRaise (Builtin e)
  end.

(** What [AUTHN_BROKER.pick] yields as a method: [main] registers the
    function [username_password_authn] and, for the unspecified context, the
    empty [str]. *)
Inductive authn_method : Type :=
| username_password_authn_fn
| str_method (s : string).

(** The members of the pysaml2 server and of the broker that [SSO.do],
    [SSO.verify_request], [Service.not_authn] and [do_authentication] call,
    the table [USERS] of [idp_user], and the rendering of the login template.
    The keyword [authn] of [create_authn_response] is its last argument. *)
Record SsoServer : Type := mkSsoServer {
  (* IDP.pick_binding("assertion_consumer_service", bindings=..,
     entity_id=_authn_req.issuer.text, request=_authn_req) *)
  pick_binding : option (list Binding) -> AuthnRequest ->
                 sresult (Binding * string);
  (* IDP.response_args(_authn_req) *)
  response_args : AuthnRequest -> sresult (list (string * string));
  (* f"{IDP.create_error_response(_authn_req.id, self.destination, excp)}" *)
  create_error_response : AuthnRequest -> string -> saml_exn -> string;
  (* f"{IDP.create_authn_response(identity, userid=.., encrypt_cert_assertion=..,
     **resp_args)}" *)
  create_authn_response : gmap string string -> option string ->
                          option string -> list (string * string) ->
                          option string -> sresult string;
  (* IDP.apply_binding(self.binding_out, resp, self.destination, relay_state,
     response=True, **kwargs); the flag tells whether soap_headers is given *)
  apply_binding_out : option Binding -> string -> option string -> value ->
                      bool -> sresult HttpArgs;
  (* f"{resp(self.environ, self.start_response)}" *)
  rendered : response -> string;
  USERS : gmap string (gmap string string);
  (* AUTHN_BROKER.pick(authn_context) *)
  broker_pick : option string -> list (authn_method * string);
  (* geturl(environ, query=False) *)
  geturl : Environ -> string;
  (* the body that the template login.mako gives for the arguments *)
  login_page : list (string * string) -> string
}.

(** The loop of [Service.response]: every header named [Location] replaces
    the response chosen so far. *)
Fixpoint location_response (hs : list (string * string))
    (resp : option response) : option response :=
  match hs with
  | [] => resp
  | (k, v) :: rest =>
      if String.eqb k "Location" then location_response rest (Some (Redirect v []))
      else location_response rest resp
  end.

(** [Service.response(binding, http_args)] *)
Definition Service_response (binding : option Binding) (http_args : HttpArgs)
  : response :=
  let resp :=
    match binding with
    | Some BINDING_HTTP_ARTIFACT => Some (Redirect "" [])
    | _ =>
        if str_truthy (data http_args)
        then Some (Response (data http_args) (headers http_args))
        else location_response (headers http_args) None
    end in
  match resp with
  | Some r => r
  | None => ServiceError "Don't know how to return response"
  end.

(** [Service.artifact_operation(saml_msg)] for a service whose [do] is the
    handler [do]; [artifact2message] is [IDP.artifact2message(.., "spsso")].
    The [try] block covers the call of [do], so a [KeyError] that [do] raises
    starts [do] again without the relay state. *)
Definition artifact_operation (artifact2message : value -> result value)
    (do : value -> Binding -> value -> M response)
    (saml_msg : option Envelope) : M response := fun st =>
  match saml_msg with
  | None => (Ok (BadRequest "Missing query"), st)
  | Some msg =>
      if negb (dict_truthy msg) then (Ok (BadRequest "Missing query"), st)
      else
        match getitem msg "SAMLart" with
        | Raise e => (Raise e, st)
        | Ok art =>
            match artifact2message art with
            | Raise e => (Raise e, st)
            | Ok request =>
                match msg !! "RelayState" with
                | None => do request BINDING_HTTP_ARTIFACT (VStr "") st
                | Some relay_state =>
                    match do request BINDING_HTTP_ARTIFACT relay_state st with
                    | (Raise e, st') =>
                        if is_KeyError e
                        then do request BINDING_HTTP_ARTIFACT (VStr "") st'
                        else (Raise e, st')
                    | (Ok r, st') => (Ok r, st')
                    end
                end
            end
        end
  end.

(** The arguments that [username_password_authn] hands to the template. *)
Definition login_argv (reference key redirect_uri : string)
  : list (string * string) :=
  [("action", "/verify"); ("login", ""); ("password", ""); ("key", key);
   ("authn_reference", reference); ("redirect_uri", redirect_uri)].

(** [username_password_authn(environ, start_response, reference, key,
    redirect_uri, headers)] *)
Definition username_password_authn (sso : SsoServer)
    (reference key redirect_uri : string)
    (hs : option (list (string * string))) : response :=
  Response (login_page sso (login_argv reference key redirect_uri))
    (match hs with
     | Some h => if negb (length h =? 0)%nat then h else []
     | None => []
     end).

(** [do_authentication(environ, start_response, authn_context, key,
    redirect_uri, headers)]. Calling a [str] is a [TypeError]. *)
Definition do_authentication (sso : SsoServer) (authn_context : option string)
    (key redirect_uri : string) (hs : option (list (string * string)))
  : result response :=
  match broker_pick sso authn_context with
  | (method, reference) :: _ =>
      match method with
      | username_password_authn_fn =>
          Ok (username_password_authn sso reference key redirect_uri hs)
      | str_method _ => Raise TypeError
      end
  | [] => Ok (Unauthorized "No usable authentication method")
  end.

(** [Service.not_authn(key, requested_authn_context)] *)
Definition not_authn (sso : SsoServer) (lib : StdLib) (env : Environ)
    (key : string) (requested_authn_context : option string)
  : result response :=
  let ruri := geturl sso env in
  match delete_cookie lib env "idpauthn" with
  | Some kaka => do_authentication sso requested_authn_context key ruri (Some [kaka])
  | None => do_authentication sso requested_authn_context key ruri None
  end.

(** [SSO.verify_request(query, binding)]: the response arguments, the error
    response if there is one, and the values of [self.binding_out] and
    [self.destination]. An empty query gives the rendered Unauthorized
    response in the place of the error response. *)
Definition verify_request (idp : IdpServer) (sso : SsoServer)
    (query : value) (binding : Binding)
  : State ->
    sresult (list (string * string) * option string
             * option Binding * option string) * State := fun st =>
  if negb (value_truthy query) then
    (SOk ([], Some (rendered sso (Unauthorized "Unknown user")), None, None), st)
  else
    let parsed :=
      if negb (value_truthy (self_req_info st)) then
        match parse_authn_request idp query binding with
        | Ok (Some ri) => SOk (VReq ri)
        | Ok None => SOk VNone
        | Raise e => SRaise (Builtin e)
        end
      else SOk (self_req_info st) in
    match parsed with
    | SRaise e => (SRaise e, st)
    | SOk ri =>
        let st := set_req_info ri st in
        match value_message ri with
        | Raise e => (SRaise (Builtin e), st)
        | Ok _authn_req =>
            match pick_binding sso (self_response_bindings st) _authn_req with
            | SRaise e => (SRaise e, st)
            | SOk (binding_out, destination) =>
                match response_args sso _authn_req with
                | SOk resp_args =>
                    (SOk (resp_args, None, Some binding_out, Some destination),
                     st)
                | SRaise (Builtin e) => (SRaise (Builtin e), st)
                | SRaise excp =>
                    (SOk ([], Some (create_error_response sso _authn_req
                                      destination excp),
                          Some binding_out, Some destination), st)
                end
            end
        end
    end.

(** The text of an exception of pysaml2, [f"{excp}"]. *)
Definition saml_exn_text (e : saml_exn) : string :=
  match e with
  | UnknownPrincipal => "UnknownPrincipal"
  | UnsupportedBinding => "UnsupportedBinding"
  | Builtin e => exn_text e
  end.

(** [USERS[self.user]] *)
Definition user_identity (sso : SsoServer) (user : option string)
  : result (gmap string string) :=
  match user with
  | Some u => getitem (USERS sso) u
  | None => Raise KeyError
  end.

(** [SSO.do(query, binding_in, relay_state, encrypt_cert)] *)
Definition SSO_do (idp : IdpServer) (sso : SsoServer) (query : value)
    (binding_in : Binding) (relay_state : value) (encrypt_cert : option string)
  : State -> sresult response * State := fun st =>
  match verify_request idp sso query binding_in st with
  | (SRaise UnknownPrincipal, st) =>
      (SOk (ServiceError ("UnknownPrincipal: " +:+ saml_exn_text UnknownPrincipal)),
       st)
  | (SRaise UnsupportedBinding, st) =>
      (SOk (ServiceError
              ("UnsupportedBinding: " +:+ saml_exn_text UnsupportedBinding)), st)
  | (SRaise (Builtin e), st) => (SRaise (Builtin e), st)
  | (SOk (resp_args, _resp, binding_out, destination), st) =>
      let built :=
        match _resp with
        | Some r => inl (SOk r)
        | None =>
            match user_identity sso (self_user st) with
            | Raise e => inl (SRaise (Builtin e))
            | Ok attrs =>
                let attrs :=
                  match self_user st with
                  | Some u => <["uid" := u]> attrs
                  | None => attrs
                  end in
                match create_authn_response sso attrs (self_user st)
                        encrypt_cert resp_args (environ_idp_authn st) with
                | SOk r => inl (SOk r)
                | SRaise excp =>
                    inr (ServiceError ("Exception: " +:+ saml_exn_text excp))
                end
            end
        end in
      match built with
      | inr resp => (SOk resp, st)
      | inl (SRaise e) => (SRaise e, st)
      | inl (SOk r) =>
          match apply_binding_out sso binding_out r destination relay_state
                  (String.eqb (self_op_type st) "ecp") with
          | SRaise e => (SRaise e, st)
          | SOk http_args => (SOk (Service_response binding_out http_args), st)
          end
      end
  end.

(** What becomes of the outcome of a handler of [SSO]: the response is
    returned, [not_authn] shows the login form, or [do] is called with the
    keyword arguments that [Service.operation] collected. *)
Definition SSO_finish (idp : IdpServer) (sso : SsoServer) (lib : StdLib)
    (env : Environ) (run : result outcome * State)
  : sresult response * State :=
  match run with
  | (Raise e, st) => (SRaise (Builtin e), st)
  | (Ok (Return r), st) => (SOk r, st)
  | (Ok (NotAuthn key requested), st) => (lift (not_authn sso lib env key requested), st)
  | (Ok (Do query binding kw), st) =>
      SSO_do idp sso query binding (default (VStr "") (kw_relay_state kw))
        (kw_encrypt_cert kw) st
  end.

(** ** Notions used in the statements *)

(** Every user's current session identifier resolves back to the user. *)
Definition consistent (c : Cache) : Prop :=
  forall u s, lookup_by_user c u = Some s -> lookup_session c s = Some u.

(** Each registration of [ops] uses an identifier that no session of the
    cache has at that moment. *)
Fixpoint fresh_ops (c : Cache) (ops : list cache_op) : Prop :=
  match ops with
  | [] => True
  | op :: rest =>
      match op with
      | OpRegister _ uid => lookup_session c uid = None
      | OpRemove _ => True
      end /\ fresh_ops (apply_op c op) rest
  end.


(** The server [sso] with another [create_authn_response]. *)
Definition with_create_authn_response (sso : SsoServer)
    (create : gmap string string -> option string -> option string ->
              list (string * string) -> option string -> sresult string)
  : SsoServer :=
  mkSsoServer (pick_binding sso) (response_args sso)
    (create_error_response sso) create (apply_binding_out sso) (rendered sso)
    (USERS sso) (broker_pick sso) (geturl sso) (login_page sso).

(** No character of [s] is a newline. *)
Fixpoint no_newline (s : string) : bool :=
  match s with
  | EmptyString => true
  | String c r => negb (Ascii.eqb c newline) && no_newline r
  end.

(** Whether a header of [hs] is named [Location], in this spelling. *)
Fixpoint has_location (hs : list (string * string)) : bool :=
  match hs with
  | [] => false
  | (k, _) :: rest => String.eqb k "Location" || has_location rest
  end.

(** A second deployment for the examples: the login broker and the
    assertion builder. *)
Module Example2.

Definition users : gmap string (gmap string string) :=
  list_to_map [("testuser", list_to_map [("sn", "Testsson")])].

Definition sso : SsoServer :=
  mkSsoServer
    (fun _ _ => SOk (BINDING_HTTP_POST, "https://sp.example/acs"))
    (fun _ => SOk [("in_response_to", "id-1")])
    (fun _ _ e => "<Response status='" +:+ saml_exn_text e +:+ "'/>")
    (fun _ user _ _ _ =>
       SOk ("<Response><Assertion subject='" +:+ default "" user +:+ "'/></Response>"))
    (fun _ resp _ _ _ => SOk (mkHttpArgs [] resp))
    (fun r => rmessage r)
    users
    (fun _ => [(username_password_authn_fn, "ref-password")])
    (fun _ => "https://idp.example/sso/redirect")
    (fun argv => "<form action='/verify'/>").

End Example2.

(** ** Theorems *)

(** C4: after the cache registers user [u] under the session identifier [s],
    looking up [s] gives [u] and looking up [u] gives [s]; after the logout
    removal for [u], both lookups find nothing. *)
Theorem session_create_lookup_destroy (c : Cache) (u s : string) :
  let c1 := cache_register c u s in
  let c2 := cache_remove c1 u in
  lookup_session c1 s = Some u /\
  lookup_by_user c1 u = Some s /\
  lookup_session c2 s = None /\
  lookup_by_user c2 u = None.
Proof.
  cbn zeta. unfold cache_remove, lookup_session, lookup_by_user; cbn.
  rewrite !lookup_insert_eq; cbn.
  rewrite !lookup_delete_eq. done.
Qed.

(** *** The session cache under repeated logins *)

Lemma stale_apply_op (c : Cache) (s u : string) (op : cache_op) :
  stale c s u -> mints s op = false -> stale (apply_op c op) s u.
Proof.
  intros [Hs Hcur] Hm. destruct op as [user uid | lid]; cbn in *.
  - apply String.eqb_neq in Hm. split; cbn.
    + by rewrite lookup_insert_ne.
    + intros u'. destruct (decide (user = u')) as [-> | Hne].
      * rewrite lookup_insert_eq. congruence.
      * rewrite lookup_insert_ne by done. apply Hcur.
  - unfold cache_remove. destruct (user2uid c !! lid) as [uid |] eqn:Hlid.
    + assert (uid <> s) as Hne by (intros ->; by apply (Hcur lid)).
      split; cbn.
      * destruct (uid2user c !! uid); [by rewrite lookup_delete_ne | done].
      * intros u'. destruct (decide (lid = u')) as [-> | Hne'].
        -- by rewrite lookup_delete_eq.
        -- rewrite lookup_delete_ne by done. apply Hcur.
    + by split.
Qed.

Lemma stale_run_ops (ops : list cache_op) (c : Cache) (s u : string) :
  stale c s u -> Forall (fun op => mints s op = false) ops ->
  stale (run_ops c ops) s u.
Proof.
  revert c. induction ops as [| op ops IH]; intros c Hst Hall; cbn.
  - done.
  - inversion Hall; subst. apply IH; [by apply stale_apply_op | done].
Qed.

(** C10: when user [u], registered under [s1], logs in again and is
    registered under a different identifier [s2], the user's current mapping
    is [s2] while both [s1] and [s2] resolve to [u]; and [s1] keeps resolving
    to [u] through every later sequence of logins that mint other identifiers
    and of logouts, the logout of [u] included: a logout removes only the
    identifier that is the current mapping of the user it logs out. *)
Theorem second_login_keeps_old_session
    (c : Cache) (u s1 s2 : string) (ops : list cache_op) :
  s1 <> s2 ->
  (forall u', user2uid c !! u' <> Some s1) ->
  Forall (fun op => mints s1 op = false) ops ->
  let c2 := cache_register (cache_register c u s1) u s2 in
  lookup_by_user c2 u = Some s2 /\
  lookup_session c2 s1 = Some u /\
  lookup_session c2 s2 = Some u /\
  lookup_session (run_ops c2 ops) s1 = Some u.
Proof.
  intros Hne Hfresh Hops c2.
  assert (stale c2 s1 u) as Hst.
  { split; cbn.
    - rewrite lookup_insert_ne by done. by rewrite lookup_insert_eq.
    - intros u'. destruct (decide (u = u')) as [-> | Hu].
      + rewrite lookup_insert_eq. congruence.
      + rewrite !lookup_insert_ne by done. apply Hfresh. }
  unfold lookup_by_user, lookup_session. repeat split.
  - subst c2; cbn. by rewrite lookup_insert_eq.
  - apply Hst.
  - subst c2; cbn. by rewrite lookup_insert_eq.
  - by apply (stale_run_ops ops c2 s1 u).
Qed.

Lemma second_login_keeps_old_session_witness :
  let c2 := cache_register (cache_register Cache_init "testuser" "uid1")
              "testuser" "uid2" in
  lookup_by_user c2 "testuser" = Some "uid2" /\
  lookup_session c2 "uid1" = Some "testuser" /\
  lookup_session c2 "uid2" = Some "testuser" /\
  lookup_session
    (run_ops c2 [OpRemove "testuser"; OpRegister "babs" "uid3"]) "uid1"
  = Some "testuser".
Proof.
  apply (second_login_keeps_old_session Cache_init "testuser" "uid1" "uid2"
           [OpRemove "testuser"; OpRegister "babs" "uid3"]).
  - discriminate.
  - intros u'. cbn. rewrite lookup_empty. discriminate.
  - repeat constructor.
Defined.

(** *** The ticket store *)

Lemma operation_state (idp : IdpServer) (m : option Envelope) (b : Binding)
    (st : State) :
  snd (operation idp m b st) = st.
Proof.
  unfold operation. destruct m as [msg |]; [| done].
  destruct (negb _); [done |].
  destruct (msg !! "Signature"), (msg !! "SigAlg"); cbn; try done;
    destruct (msg !! "req_info") as [ri |]; cbn; try done;
    try (destruct (value_message ri); cbn; try done);
    destruct (msg !! "SAMLRequest"); done.
Qed.

Lemma read_ticket_hit (t : gmap string Envelope) (msg stored : Envelope)
    (k : string) (ri : value) :
  read_ticket t msg = TicketHit k stored ri ->
  msg !! "key" = Some (VStr k) /\ t !! k = Some stored /\
  stored !! "req_info" = Some ri.
Proof.
  unfold read_ticket. intros H.
  destruct (msg !! "key") as [[| key |] |]; try discriminate.
  destruct (t !! key) as [s |] eqn:Ht; try discriminate.
  destruct (s !! "req_info") as [r |] eqn:Hr; try discriminate.
  by inversion H; subst.
Qed.

(** C2: the key under which [_store_request] files a request is the hash of
    the raw [SAMLRequest] text, so two calls with the same [SAMLRequest]
    return the same key, whatever the other fields and the store hold; and a
    request that takes a ticket removes it: afterwards the key is absent, the
    same request misses the store and is parsed again from its raw fields. *)
Theorem ticket_key_stable_and_single_use
    (idp : IdpServer) (lib : StdLib) (env : Environ) (st : State)
    (msg stored : Envelope) (k : string) (ri : value) :
  unpack_redirect lib env = Some msg ->
  read_ticket (ticket st) msg = TicketHit k stored ri ->
  (forall (m1 m2 : Envelope) (st1 st2 : State),
      m1 !! "SAMLRequest" = m2 !! "SAMLRequest" ->
      fst (_store_request lib m1 st1) = fst (_store_request lib m2 st2)) /\
  (forall (m : Envelope) (raw : string) (st1 : State),
      m !! "SAMLRequest" = Some (VStr raw) ->
      let key := sha1_hexdigest lib (str_encode_utf8 raw) in
      _store_request lib m st1
      = (Ok key, set_ticket (<[key := m]> (ticket st1)) st1)) /\
  let st' := snd (SSO_redirect idp lib env st) in
  fst (SSO_redirect idp lib env st)
  = fst (operation idp (Some stored) BINDING_HTTP_REDIRECT st') /\
  ticket st' = delete k (ticket st) /\
  ticket st' !! k = None /\
  read_ticket (ticket st') msg = TicketMiss msg /\
  SSO_redirect idp lib env st' = redirect_no_ticket idp lib msg st'.
Proof.
  intros Hmsg Hhit.
  destruct (read_ticket_hit _ _ _ _ _ Hhit) as (Hkey & Hk & Hri).
  split; [| split].
  - intros m1 m2 st1 st2 Heq. unfold _store_request, ticket_key, getitem.
    rewrite Heq. destruct (m2 !! "SAMLRequest") as [v |]; cbn; [| done].
    destruct (value_encode v); done.
  - intros m raw st1 Hm. unfold _store_request, ticket_key, getitem.
    by rewrite Hm.
  - cbn zeta.
    assert (SSO_redirect idp lib env st
            = operation idp (Some stored) BINDING_HTTP_REDIRECT
                (set_ticket (delete k (ticket st)) (set_req_info ri st)))
      as Hrun.
    { unfold SSO_redirect. by rewrite Hmsg, Hhit. }
    rewrite Hrun, operation_state. cbn [ticket set_ticket].
    assert (read_ticket (delete k (ticket st)) msg = TicketMiss msg) as Hmiss.
    { unfold read_ticket. by rewrite Hkey, lookup_delete_eq. }
    repeat split.
    + by rewrite lookup_delete_eq.
    + done.
    + unfold SSO_redirect at 1. rewrite Hmsg. cbn [ticket set_ticket].
      by rewrite Hmiss.
Qed.

Lemma ticket_key_stable_and_single_use_witness :
  let env := Example.env "/sso/redirect" (Some "key=k1") None None "" in
  let st := new_service Example.tickets Example.logged_in None (Some "testuser") in
  let st' := snd (SSO_redirect Example.idp Example.lib env st) in
  ticket st' !! "k1" = None /\
  SSO_redirect Example.idp Example.lib env st'
  = redirect_no_ticket Example.idp Example.lib
      (first_values Example.lib "key=k1") st'.
Proof.
  intros env st st'.
  pose proof (ticket_key_stable_and_single_use Example.idp Example.lib env st
                (first_values Example.lib "key=k1") Example.stored "k1"
                (VReq (mkReqInfo Example.authn_request))
                eq_refl eq_refl) as H.
  split; apply H.
Defined.

(** *** The signature check of [SSO.redirect] *)

Lemma verified_ok_iff (idp : IdpServer) (msg : Envelope)
    (certs : list (string * string)) :
  verified_ok idp msg certs = true <->
  exists name cert,
    In (name, cert) certs /\ verify_redirect_signature idp msg cert = true.
Proof.
  induction certs as [| [n c] rest IH]; cbn.
  - split; [discriminate | intros (? & ? & [] & _)].
  - destruct (verify_redirect_signature idp msg c) eqn:Hv.
    + split; [| done]. intros _. exists n, c. by split; [left |].
    + rewrite IH. split.
      * intros (n' & c' & Hin & Hok). exists n', c'. by split; [right |].
      * intros (n' & c' & [Heq | Hin] & Hok).
        -- inversion Heq; subst. congruence.
        -- by exists n', c'.
Qed.

Lemma store_and_login_outcome (lib : StdLib) (msg : Envelope)
    (_req : AuthnRequest) (st : State) (r : response) :
  fst (store_and_login lib msg _req st) <> Ok (Return r).
Proof.
  unfold store_and_login.
  destruct (_store_request lib _ st) as [[key | e] st']; cbn; discriminate.
Qed.

Lemma redirect_proceed_not_sigfail (idp : IdpServer) (lib : StdLib)
    (msg : Envelope) (ri : ReqInfo) (st : State) :
  contains msg "SigAlg" = true ->
  contains msg "SAMLRequest" = true ->
  fst (redirect_proceed idp lib msg ri st) <> Ok (Return sigfail).
Proof.
  intros Halg Hreq. unfold redirect_proceed.
  destruct (opt_truthy (self_user st)); [| apply store_and_login_outcome].
  destruct (forces_authn (message ri)); [apply store_and_login_outcome |].
  unfold operation, contains in *.
  set (m := <["req_info" := self_req_info st]> msg).
  assert (m !! "SigAlg" = msg !! "SigAlg") as -> by (by apply lookup_insert_ne).
  assert (m !! "Signature" = msg !! "Signature") as ->
    by (by apply lookup_insert_ne).
  assert (m !! "SAMLRequest" = msg !! "SAMLRequest") as ->
    by (by apply lookup_insert_ne).
  assert (dict_truthy m = true) as ->.
  { unfold dict_truthy. destruct (map_to_list m) eqn:Hl; [| done].
    apply map_to_list_empty_iff in Hl.
    assert (m !! "req_info" = None) as Hn by (rewrite Hl; apply lookup_empty).
    subst m. by rewrite lookup_insert_eq in Hn. }
  destruct (msg !! "SAMLRequest") as [q |]; [| done].
  destruct (msg !! "SigAlg") as [a |]; [| done]. cbn.
  destruct (msg !! "Signature"); cbn;
    (destruct (m !! "req_info") as [rv |]; cbn;
     [destruct (value_message rv); cbn |]); discriminate.
Qed.

(** C1, amended: a request on the HTTP-Redirect endpoint that carries both
    [Signature] and [SigAlg], does not resume a stored ticket and whose
    [SAMLRequest] the codec parses, has its signature verified against the
    signing certificates of its issuer. It passes the check, and goes on to
    the login form or to the SSO operation that builds the assertion, exactly
    when one of the certificates verifies; otherwise the answer is the
    BadRequest "Message signature verification failure". The handler reaches
    the operation that builds the assertion only after a certificate
    verified. *)
Theorem signed_redirect_checked
    (idp : IdpServer) (lib : StdLib) (env : Environ) (st : State)
    (msg : Envelope) (query : value) (ri : ReqInfo) :
  unpack_redirect lib env = Some msg ->
  read_ticket (ticket st) msg = TicketMiss msg ->
  contains msg "Signature" = true ->
  contains msg "SigAlg" = true ->
  msg !! "SAMLRequest" = Some query ->
  parse_authn_request idp query BINDING_HTTP_REDIRECT = Ok (Some ri) ->
  let verified :=
    exists name cert,
      In (name, cert) (metadata_certs idp (issuer_text (message ri))) /\
      verify_redirect_signature idp msg cert = true in
  let st1 := set_req_info (VReq ri) st in
  (verified ->
   SSO_redirect idp lib env st = redirect_proceed idp lib msg ri st1) /\
  (~ verified -> SSO_redirect idp lib env st = (Ok (Return sigfail), st1)) /\
  (verified <-> fst (SSO_redirect idp lib env st) <> Ok (Return sigfail)) /\
  (forall q b kw, fst (SSO_redirect idp lib env st) = Ok (Do q b kw) -> verified).
Proof.
  intros Hmsg Hmiss Hsig Halg Hreq Hparse verified st1.
  assert (SSO_redirect idp lib env st
          = if verified_ok idp msg (metadata_certs idp (issuer_text (message ri)))
            then redirect_proceed idp lib msg ri st1
            else (Ok (Return sigfail), st1)) as Hrun.
  { unfold SSO_redirect. rewrite Hmsg, Hmiss. unfold redirect_no_ticket.
    rewrite Hreq, Hparse, Hsig, Halg. cbn.
    by destruct (verified_ok idp msg _). }
  pose proof (verified_ok_iff idp msg
                (metadata_certs idp (issuer_text (message ri)))) as Hiff.
  fold verified in Hiff.
  assert (contains msg "SAMLRequest" = true) as Hc
    by (unfold contains; by rewrite Hreq).
  rewrite Hrun.
  destruct (verified_ok idp msg _) eqn:Hv.
  - assert verified as Hver by (by apply Hiff).
    split; [done |]. split; [done |]. split; [| done].
    split; [| done]. intros _. by apply redirect_proceed_not_sigfail.
  - assert (~ verified) as Hnot by (intros H; apply Hiff in H; discriminate).
    split; [done |]. split; [done |]. split.
    + split; [done |]. intros H. by destruct H.
    + intros q b kw H. discriminate.
Qed.

Lemma signed_redirect_checked_witness :
  let env := Example.env "/sso/redirect"
               (Some "SAMLRequest=req&Signature=cert2&SigAlg=rsa-sha1")
               None None "" in
  let st := new_service ∅ Example.logged_in None (Some "testuser") in
  exists q kw,
    fst (SSO_redirect Example.idp Example.lib env st)
    = Ok (Do q BINDING_HTTP_REDIRECT kw).
Proof.
  intros env st.
  pose proof (signed_redirect_checked Example.idp Example.lib env st
                (first_values Example.lib
                   "SAMLRequest=req&Signature=cert2&SigAlg=rsa-sha1")
                (VStr "req") (mkReqInfo Example.authn_request)
                eq_refl eq_refl eq_refl eq_refl eq_refl eq_refl)
    as (Hpass & _).
  rewrite Hpass.
  - vm_compute. eauto.
  - exists "second", "cert2". split; [right; by left | reflexivity].
Defined.

(** C1 as stated fails: a request that carries [Signature] and [SigAlg]
    together with the key of a stored ticket reaches the operation that
    builds the assertion although no certificate verifies its signature. *)
Lemma signed_redirect_counterexample :
  let env := Example.env "/sso/redirect"
               (Some "key=k1&SAMLRequest=req&Signature=forged&SigAlg=rsa-sha1")
               None None "" in
  let st := new_service Example.tickets Example.logged_in None (Some "testuser") in
  exists msg,
    unpack_redirect Example.lib env = Some msg /\
    contains msg "Signature" = true /\
    contains msg "SigAlg" = true /\
    (forall name cert,
        In (name, cert) (metadata_certs Example.idp "sp.example") ->
        verify_redirect_signature Example.idp msg cert = false) /\
    fst (SSO_redirect Example.idp Example.lib env st)
    = Ok (Do (VStr "req") BINDING_HTTP_REDIRECT (mkKwargs None None None None)).
Proof.
  eexists. split; [reflexivity |]. repeat split.
  - intros name cert [H | [H | []]]; inversion H; subst; reflexivity.
Qed.

(** *** Requests without the mandatory field *)

(** [Service.operation] answers an absent or empty envelope, and one without
    [SAMLRequest], with a BadRequest, and leaves the state alone. *)
Lemma operation_rejects_missing_request (idp : IdpServer)
    (saml_msg : option Envelope) (binding : Binding) (st : State) :
  (saml_msg = None \/ saml_msg = Some ∅ \/
   exists msg, saml_msg = Some msg /\ msg !! "SAMLRequest" = None) ->
  operation idp saml_msg binding st
  = (Ok (Return (BadRequest "Error parsing request or no request")), st).
Proof.
  intros [-> | [-> | (msg & -> & Hmiss)]]; unfold operation; try done.
  unfold contains. rewrite Hmiss. by rewrite andb_false_r.
Qed.

(** [SSO.redirect] answers an envelope with neither a ticket key nor
    [SAMLRequest] with a BadRequest. *)
Lemma sso_redirect_rejects_missing_request (idp : IdpServer) (lib : StdLib)
    (env : Environ) (st : State) (msg : Envelope) :
  unpack_redirect lib env = Some msg ->
  msg !! "key" = None ->
  msg !! "SAMLRequest" = None ->
  SSO_redirect idp lib env st = (Ok (Return sigfail), st).
Proof.
  intros Hmsg Hkey Hreq. unfold SSO_redirect, read_ticket.
  rewrite Hmsg, Hkey. unfold redirect_no_ticket. by rewrite Hreq.
Qed.

(** [SSO.post] lets the [KeyError] of the same envelope escape. *)
Lemma sso_post_raises_on_missing_request (idp : IdpServer) (lib : StdLib)
    (env : Environ) (st : State) (msg : Envelope) :
  unpack_either lib env = Ok (Some msg) ->
  msg !! "key" = None ->
  msg !! "SAMLRequest" = None ->
  SSO_post idp lib env st = (Raise KeyError, st).
Proof.
  intros Hmsg Hkey Hreq. unfold SSO_post, read_ticket.
  rewrite Hmsg, Hkey. unfold post_no_ticket. by rewrite Hreq.
Qed.

(** C7 fails on [SSO.post]: a POST to [sso/post] with an empty body decodes
    to the empty envelope, and the handler raises a [KeyError] where
    [SSO.redirect] and [Service.operation] answer with a BadRequest. A GET
    without a query string makes [SSO.redirect] raise a [TypeError]. *)
Theorem sso_post_empty_body_raises (st : State) :
  let post := mkEnviron (Some "/sso/post") None (Some "POST") None None "" in
  let get := mkEnviron (Some "/sso/redirect") None (Some "GET") None None "" in
  unpack_either Example.lib post = Ok (Some ∅) /\
  SSO_post Example.idp Example.lib post st = (Raise KeyError, st) /\
  Service_post Example.idp Example.lib post st
  = (Ok (Return (BadRequest "Error parsing request or no request")), st) /\
  unpack_redirect Example.lib get = None /\
  SSO_redirect Example.idp Example.lib get st = (Raise TypeError, st).
Proof.
  cbn zeta. split; [reflexivity |]. split.
  - by apply (sso_post_raises_on_missing_request _ _ _ _ ∅).
  - split; [| by split].
    unfold Service_post. apply operation_rejects_missing_request.
    right; by left.
Qed.

(** *** Logout of an unknown session *)

(** A logout request whose name identifier has no entry in the session
    cache leaves the cache as it is, and the statement removal is still
    called. *)
Lemma slo_no_session_state
    (idp : IdpServer) (lib : StdLib) (env : Environ) (st : State)
    (request relay_state : value) (binding : Binding) (msg : LogoutRequest)
    (nid : string) :
  parse_logout_request idp request binding = Ok msg ->
  name_id msg = Some nid ->
  (forall lid, find_local_id idp nid = Some lid ->
               user2uid (cache st) !! lid = None) ->
  let run := SLO_do idp lib env request binding relay_state st in
  cache (snd run) = cache st /\
  trace (snd run) = trace st ++ [RemoveAuthnStatements nid].
Proof.
  intros Hparse Hnid Hlid run. subst run. unfold SLO_do.
  rewrite Hparse, Hnid.
  assert (cache_remove_lid (cache st) (find_local_id idp nid) = cache st)
    as Hsame.
  { destruct (find_local_id idp nid) as [lid |] eqn:Hf; [| done].
    cbn. unfold cache_remove. by rewrite (Hlid lid eq_refl). }
  rewrite Hsame.
  destruct (remove_authn_statements idp nid) as [[] | e] eqn:Hrm; cbn;
    [done |].
  by destruct (is_KeyError e).
Qed.

(** When the statement removal raises a [KeyError], the handler calls
    [ServiceError] with two positional arguments; the call raises a
    [TypeError] and [SLO.do] returns no response. *)
Lemma slo_unknown_session_escapes
    (idp : IdpServer) (lib : StdLib) (env : Environ) (st : State)
    (request relay_state : value) (binding : Binding) (msg : LogoutRequest)
    (nid : string) :
  parse_logout_request idp request binding = Ok msg ->
  name_id msg = Some nid ->
  remove_authn_statements idp nid = Raise KeyError ->
  fst (SLO_do idp lib env request binding relay_state st) = Raise TypeError.
Proof.
  intros Hparse Hnid Hrm. unfold SLO_do. by rewrite Hparse, Hnid, Hrm.
Qed.

(** The handler next to it, around [apply_binding], calls [ServiceError]
    with one argument and answers with that response. *)
Lemma slo_apply_binding_failure_answers
    (idp : IdpServer) (lib : StdLib) (env : Environ) (msg : LogoutRequest)
    (relay_state : value) (e : exn) :
  apply_binding idp BINDING_SOAP (create_logout_response idp msg BINDING_SOAP)
    "" relay_state false = Raise e ->
  slo_respond idp lib env msg BINDING_SOAP relay_state
  = Ok (ServiceError (exn_text e)).
Proof.
  intros Happly. unfold slo_respond. cbn [Binding_eqb Py.bind].
  by rewrite Happly.
Qed.

(** C5 fails in [SLO.do]: for a name identifier without a session the cache
    is left as it is and the statement removal is called, but when that call
    raises a [KeyError] the handler raises a [TypeError] instead of
    answering with an "unknown session" error. *)
Theorem slo_unknown_session_raises (st : State) (binding : Binding)
    (relay_state : value) :
  let run := SLO_do Example.idp Example.lib
               (Example.env "/slo/soap" None None None "nid-nobody")
               (VStr "nid-nobody") binding relay_state st in
  find_local_id Example.idp "nid-nobody" = None /\
  remove_authn_statements Example.idp "nid-nobody" = Raise KeyError /\
  cache (snd run) = cache st /\
  trace (snd run) = trace st ++ [RemoveAuthnStatements "nid-nobody"] /\
  fst run = Raise TypeError.
Proof.
  intros run. split; [reflexivity |]. split; [reflexivity |].
  pose proof (slo_no_session_state Example.idp Example.lib
                (Example.env "/slo/soap" None None None "nid-nobody") st
                (VStr "nid-nobody") relay_state binding
                (mkLogoutRequest (Some "nid-nobody")) "nid-nobody"
                eq_refl eq_refl) as [Hc Ht]; [discriminate |].
  split; [exact Hc |]. split; [exact Ht |].
  by apply (slo_unknown_session_escapes Example.idp Example.lib
              (Example.env "/slo/soap" None None None "nid-nobody") st
              (VStr "nid-nobody") relay_state binding
              (mkLogoutRequest (Some "nid-nobody")) "nid-nobody").
Qed.

(** *** Identity resolution and routing in [application] *)

Lemma first_match_app (ps qs : list (list ritem * callback)) (path : string) :
  first_match (ps ++ qs) path
  = match first_match ps path with
    | Some cb => Some cb
    | None => first_match qs path
    end.
Proof.
  induction ps as [| [re cb] ps IH]; cbn; [done |].
  by destruct (re_search re path).
Qed.






(** *** Static files *)

(** C8 fails on the prefix test of [staticfile]: with the root [/srv/idp] a
    request for [static/../../idp_secret/key] is routed to [staticfile],
    resolves to [/srv/idp_secret/key], which is outside the root, and is
    answered with the content of that file. *)
Theorem staticfile_serves_sibling_directory :
  let env := Example.env "/static/../../idp_secret/key" None None None "" in
  let root := "/srv/idp" in
  let resolved :=
    realpath Example.lib (root +:+ "/" +:+ "static/../../idp_secret/key") in
  application Example.lib Example.broker Example.logged_in env
  = Ok ToStaticfile /\
  resolved = "/srv/idp_secret/key" /\
  inside_root root resolved = false /\
  startswith resolved root = true /\
  staticfile Example.lib root env
  = Ok (Response "PRIVATE KEY" [("Content-Type", "text/xml")]).
Proof.
  cbn zeta. repeat split; reflexivity.
Qed.

(** *** The ECP entry *)

(** Every Basic header whose credentials decode makes [SSO.ecp] raise. *)
Lemma ecp_decodable_credentials_raise (idp : IdpServer) (env : Environ)
    (post : result string) (st : State) (authz : string) (creds : bytes) :
  HTTP_AUTHORIZATION env = Some authz ->
  startswith authz "Basic " = true ->
  Base64.b64decode (str_drop 6 authz) = Ok creds ->
  SSO_ecp idp env post st = (Raise TypeError, st).
Proof.
  intros Ha Hb Hd. unfold SSO_ecp, ecp_authorize. rewrite Ha.
  cbn [Py.bind]. by rewrite Hb, Hd.
Qed.

(** C9 fails on [SSO.ecp]: the header [Basic dGVzdHVzZXI6cXdlcnR5] carries
    the credentials [testuser:qwerty], which match [PASSWD], and the handler
    raises a [TypeError] instead of entering the SSO operation as
    [testuser]. Requests without the header, or with another scheme, are
    answered with Unauthorized. *)
Theorem ecp_matching_credentials_raise (st : State) (post : result string) :
  let env authz := Example.env "/sso/ecp" None None authz "<AuthnRequest/>" in
  Base64.b64decode "dGVzdHVzZXI6cXdlcnR5"
  = Ok (list_byte_of_string "testuser:qwerty") /\
  PASSWD !! "testuser" = Some "qwerty" /\
  SSO_ecp Example.idp (env (Some "Basic dGVzdHVzZXI6cXdlcnR5")) post st
  = (Raise TypeError, st) /\
  SSO_ecp Example.idp (env None) post st
  = (Ok (Return (Unauthorized "")), st) /\
  SSO_ecp Example.idp (env (Some "Digest abc")) post st
  = (Ok (Return (Unauthorized "")), st).
Proof.
  cbn zeta. split; [reflexivity |]. split; [reflexivity |]. split.
  - by apply (ecp_decodable_credentials_raise _ _ _ _
                "Basic dGVzdHVzZXI6cXdlcnR5"
                (list_byte_of_string "testuser:qwerty")).
  - by split.
Qed.

(** *** Base64 round trip *)

(* [lia] reads quotients and remainders by constants as their equations. *)
Ltac Zify.zify_post_hook ::= Z.to_euclidean_division_equations.

Lemma list_ind3 {A} (P : list A -> Prop) :
  P [] -> (forall a, P [a]) -> (forall a b, P [a; b]) ->
  (forall a b c l, P l -> P (a :: b :: c :: l)) ->
  forall l, P l.
Proof.
  intros H0 H1 H2 H3. fix IH 1.
  intros [| a [| b [| c l]]]; [apply H0 | apply H1 | apply H2 | apply H3, IH].
Qed.

Lemma bounded_N (P : N -> bool) (n : nat) :
  forallb P (map N.of_nat (seq 0 n)) = true ->
  forall v, (v < N.of_nat n)%N -> P v = true.
Proof.
  intros H v Hv. rewrite forallb_forall in H. apply H.
  apply in_map_iff. exists (N.to_nat v). split; [apply N2Nat.id |].
  apply in_seq. lia.
Qed.

Lemma table_digit (v : N) :
  (v < 64)%N ->
  Byte.eqb (Base64.table_b2a v) Base64.pad = false /\
  Base64.table_a2b (Base64.table_b2a v) = Some v.
Proof.
  intros Hv.
  pose proof (bounded_N
    (fun v => negb (Byte.eqb (Base64.table_b2a v) Base64.pad)
              && match Base64.table_a2b (Base64.table_b2a v) with
                 | Some w => N.eqb w v
                 | None => false
                 end) 64 eq_refl v Hv) as H.
  cbn beta in H. apply andb_true_iff in H as [H1 H2].
  split; [by apply negb_true_iff |].
  destruct (Base64.table_a2b (Base64.table_b2a v)); [| discriminate].
  by apply N.eqb_eq in H2 as ->.
Qed.

Lemma byte_of_to_N (b : byte) : Base64.byte_of_N (Byte.to_N b) = b.
Proof.
  unfold Base64.byte_of_N.
  pose proof (Byte.to_N_bounded b).
  rewrite N.mod_small by lia. by rewrite Byte.of_to_N.
Qed.

Lemma pack_div (k r q : N) : (q < k -> (r * k + q) / k = r)%N.
Proof. intros H. symmetry. apply (N.div_unique _ _ r q); lia. Qed.

Lemma pack_mod (k r q : N) : (q < k -> (r * k + q) mod k = q)%N.
Proof. intros H. symmetry. apply (N.mod_unique _ _ r q); lia. Qed.

(** One digit of the alphabet advances the decoder by one position. *)
Lemma a2b_loop_digit (v : N) (rest : bytes) (quad_pos : nat) (leftchar : N)
    (pads : nat) (out : bytes) :
  (v < 64)%N ->
  Base64.a2b_loop (Base64.table_b2a v :: rest) quad_pos leftchar pads out
  = match quad_pos with
    | 0%nat => Base64.a2b_loop rest 1 v 0 out
    | 1%nat =>
        Base64.a2b_loop rest 2 (v mod 16)%N 0
          (Base64.byte_of_N (leftchar * 4 + v / 16) :: out)
    | 2%nat =>
        Base64.a2b_loop rest 3 (v mod 4)%N 0
          (Base64.byte_of_N (leftchar * 16 + v / 4) :: out)
    | _ =>
        Base64.a2b_loop rest 0 0%N 0
          (Base64.byte_of_N (leftchar * 64 + v) :: out)
    end.
Proof.
  intros Hv. destruct (table_digit v Hv) as [Hpad Hdig].
  cbn [Base64.a2b_loop]. by rewrite Hpad, Hdig.
Qed.

Lemma b2a_cons3 (a b c : byte) (rest : bytes) :
  Base64.b2a (a :: b :: c :: rest)
  = (Base64.table_b2a (Byte.to_N a / 4)
     :: Base64.table_b2a ((Byte.to_N a mod 4) * 16 + Byte.to_N b / 16)
     :: Base64.table_b2a ((Byte.to_N b mod 16) * 4 + Byte.to_N c / 64)
     :: Base64.table_b2a (Byte.to_N c mod 64)
     :: Base64.b2a rest)%N.
Proof. reflexivity. Qed.

Lemma byte_lt (b : byte) : (Byte.to_N b < 256)%N.
Proof. pose proof (Byte.to_N_bounded b). lia. Qed.

Lemma a2b_loop_b2a (bs : bytes) :
  forall (leftchar : N) (pads : nat) (out : bytes),
    Base64.a2b_loop (Base64.b2a bs) 0 leftchar pads out = Ok (rev out ++ bs).
Proof.
  induction bs as [| a | a b | a b c rest IH] using list_ind3;
    intros leftchar pads out.
  - cbn. by rewrite app_nil_r.
  - pose proof (byte_lt a) as Ha.
    change (Base64.b2a [a])
      with [Base64.table_b2a (Byte.to_N a / 4);
            Base64.table_b2a ((Byte.to_N a mod 4) * 16);
            Base64.pad; Base64.pad]%N.
    rewrite !a2b_loop_digit by lia. cbn [Base64.a2b_loop].
    change (Byte.eqb Base64.pad Base64.pad) with true. cbn.
    rewrite N.div_mul by lia.
    replace (Byte.to_N a / 4 * 4 + Byte.to_N a mod 4)%N with (Byte.to_N a)
      by lia.
    by rewrite byte_of_to_N.
  - pose proof (byte_lt a) as Ha. pose proof (byte_lt b) as Hb.
    change (Base64.b2a [a; b])
      with [Base64.table_b2a (Byte.to_N a / 4);
            Base64.table_b2a ((Byte.to_N a mod 4) * 16 + Byte.to_N b / 16);
            Base64.table_b2a ((Byte.to_N b mod 16) * 4);
            Base64.pad]%N.
    rewrite !a2b_loop_digit by lia. cbn [Base64.a2b_loop].
    change (Byte.eqb Base64.pad Base64.pad) with true. cbn.
    rewrite pack_div, pack_mod, N.div_mul by lia.
    replace (Byte.to_N a / 4 * 4 + Byte.to_N a mod 4)%N with (Byte.to_N a)
      by lia.
    replace (Byte.to_N b / 16 * 16 + Byte.to_N b mod 16)%N with (Byte.to_N b)
      by lia.
    rewrite !byte_of_to_N. by rewrite <- app_assoc.
  - pose proof (byte_lt a) as Ha. pose proof (byte_lt b) as Hb.
    pose proof (byte_lt c) as Hc.
    rewrite b2a_cons3, !a2b_loop_digit by lia.
    rewrite !pack_div, !pack_mod by lia.
    replace (Byte.to_N a / 4 * 4 + Byte.to_N a mod 4)%N with (Byte.to_N a)
      by lia.
    replace (Byte.to_N b / 16 * 16 + Byte.to_N b mod 16)%N with (Byte.to_N b)
      by lia.
    replace (Byte.to_N c / 64 * 64 + Byte.to_N c mod 64)%N with (Byte.to_N c)
      by lia.
    rewrite !byte_of_to_N, IH. cbn [rev]. by rewrite <- !app_assoc.
Qed.

(** Decoding what the encoder wrote gives the bytes back. *)
Lemma a2b_b2a (bs : bytes) : Base64.a2b (Base64.b2a bs) = Ok bs.
Proof. unfold Base64.a2b. by rewrite a2b_loop_b2a. Qed.

(** *** The cookie codec *)

Lemma list_byte_of_string_app (a b : string) :
  list_byte_of_string (a +:+ b)
  = list_byte_of_string a ++ list_byte_of_string b.
Proof.
  induction a as [| ch a IH]; [done |].
  change (list_byte_of_string (String ch a +:+ b))
    with (byte_of_ascii ch :: list_byte_of_string (a +:+ b)).
  by rewrite IH.
Qed.

Lemma table_b2a_ascii (v : N) : is_ascii_byte (Base64.table_b2a v) = true.
Proof.
  unfold Base64.table_b2a.
  destruct (nth_in_or_default (N.to_nat v) Base64.alphabet Base64.pad)
    as [Hin | ->]; [| reflexivity].
  assert (forallb is_ascii_byte Base64.alphabet = true) as Hall
    by reflexivity.
  rewrite forallb_forall in Hall. by apply Hall.
Qed.

Lemma b2a_ascii (bs : bytes) : forallb is_ascii_byte (Base64.b2a bs) = true.
Proof.
  induction bs as [| a | a b | a b c rest IH] using list_ind3.
  - done.
  - cbn [Base64.b2a forallb]. by rewrite !table_b2a_ascii.
  - cbn [Base64.b2a forallb]. by rewrite !table_b2a_ascii.
  - rewrite b2a_cons3. cbn [forallb]. by rewrite !table_b2a_ascii, IH.
Qed.


(** What [set_cookie] stores for an ASCII pair. *)
Lemma cookie_payload_pair (sid ref : string) :
  is_ascii_str sid = true -> is_ascii_str ref = true ->
  cookie_payload [sid; ref]
  = Ok (string_of_list_byte
          (Base64.b64encode (list_byte_of_string (sid +:+ ":" +:+ ref)))).
Proof.
  intros Hs Hr. unfold cookie_payload, str_encode_ascii. cbn [str_join].
  assert (forallb is_ascii_byte (list_byte_of_string (sid +:+ ":" +:+ ref))
          = true) as ->.
  { rewrite !list_byte_of_string_app, !forallb_app.
    unfold is_ascii_str in *. by rewrite Hs, Hr. }
  cbn [Py.bind]. unfold bytes_decode_ascii, Base64.b64encode.
  by rewrite b2a_ascii.
Qed.





(** *** Further properties of the handlers *)

(** X1: the base64 text of any bytes decodes to these bytes. *)
Theorem b64decode_b64encode (bs : bytes) :
  (text <- bytes_decode_ascii (Base64.b64encode bs) ;; Base64.b64decode text)
  = Ok bs.
Proof.
  unfold bytes_decode_ascii, Base64.b64encode. rewrite b2a_ascii.
  cbn [Py.bind]. unfold Base64.b64decode, str_encode_ascii.
  rewrite list_byte_of_string_of_list_byte, b2a_ascii. apply a2b_b2a.
Qed.

(** X2: a login with a password of [PASSWD] registers the user under the fresh
    identifier and answers with a redirect to the service that carries the
    identifier and the ticket key, and with the cookie of the session. *)
Theorem do_verify_success (lib : StdLib) (env : Environ) (uid : string)
    (st : State) (login password ref ruri key : string)
    (l1 l2 l3 l4 l5 : list string) :
  is_ascii_str (wsgi_input env) = true ->
  parse_qs lib (wsgi_input env) !! "login" = Some (login, l1) ->
  parse_qs lib (wsgi_input env) !! "password" = Some (password, l2) ->
  parse_qs lib (wsgi_input env) !! "authn_reference" = Some (ref, l3) ->
  parse_qs lib (wsgi_input env) !! "redirect_uri" = Some (ruri, l4) ->
  parse_qs lib (wsgi_input env) !! "key" = Some (key, l5) ->
  PASSWD !! login = Some password ->
  is_ascii_str uid = true ->
  is_ascii_str ref = true ->
  exists v,
    cookie_payload [uid; ref] = Ok v /\
    do_verify lib env uid st
    = (Ok (Redirect (ruri +:+ "?id=" +:+ uid +:+ "&key=" +:+ key)
             [cookie_output lib "idpauthn" v "/" (_expiration lib (Minutes 5))]),
       set_cache (cache_register (cache st) login uid) st) /\
    lookup_session (cache_register (cache st) login uid) uid = Some login /\
    lookup_by_user (cache_register (cache st) login uid) login = Some uid.
Proof.
  intros Hbody Hl Hp Hr Hu Hk Hpw Huid Href.
  eexists. split; [by apply cookie_payload_pair |].
  split; [| split].
  - unfold do_verify, str_encode_ascii. unfold is_ascii_str in Hbody.
    rewrite Hbody. unfold verify_username_and_password, getitem.
    rewrite Hl, Hp. cbn [Py.bind fst]. rewrite Hpw. cbn [Py.bind].
    rewrite String.eqb_refl, Hr, Hu, Hk. cbn [Py.bind fst].
    unfold set_cookie. by rewrite cookie_payload_pair.
  - unfold lookup_session; cbn. by rewrite lookup_insert_eq.
  - unfold lookup_by_user; cbn. by rewrite lookup_insert_eq.
Qed.

Lemma do_verify_success_witness :
  let env := Example.env "/verify" None None None Example.login_form in
  let st := new_service ∅ Cache_init None None in
  exists r,
    fst (do_verify Example.lib env "uid1" st) = Ok r /\
    status r = 302 /\
    cache (snd (do_verify Example.lib env "uid1" st)) = Example.logged_in.
Proof.
  intros env st.
  destruct (do_verify_success Example.lib env "uid1" st "testuser" "qwerty"
              "ref-password" "https://idp.example/sso/redirect" "k1"
              [] [] [] [] []) as (v & _ & Hrun & _);
    [vm_compute; reflexivity .. |].
  rewrite Hrun. eexists. split; [reflexivity |]. split; reflexivity.
Defined.

(** X5: the logout of a user with a session removes both directions of the
    session cache before the statement removal is called. *)
Theorem slo_removes_session
    (idp : IdpServer) (lib : StdLib) (env : Environ) (st : State)
    (request relay_state : value) (binding : Binding) (msg : LogoutRequest)
    (nid lid uid : string) :
  parse_logout_request idp request binding = Ok msg ->
  name_id msg = Some nid ->
  find_local_id idp nid = Some lid ->
  lookup_by_user (cache st) lid = Some uid ->
  let st' := snd (SLO_do idp lib env request binding relay_state st) in
  lookup_by_user (cache st') lid = None /\
  lookup_session (cache st') uid = None /\
  trace st' = trace st ++ [RemoveAuthnStatements nid].
Proof.
  intros Hparse Hnid Hlid Hcur st'. subst st'. unfold SLO_do.
  rewrite Hparse, Hnid, Hlid. unfold lookup_by_user in Hcur.
  assert (lookup_by_user (cache_remove (cache st) lid) lid = None /\
          lookup_session (cache_remove (cache st) lid) uid = None)
    as [H1 H2].
  { unfold cache_remove, lookup_by_user, lookup_session. rewrite Hcur.
    cbn. split; [by rewrite lookup_delete_eq |].
    destruct (uid2user (cache st) !! uid) eqn:Hu;
      [by rewrite lookup_delete_eq | done]. }
  destruct (remove_authn_statements idp nid) as [[] | e]; cbn.
  - done.
  - by destruct (is_KeyError e).
Qed.

Lemma slo_removes_session_witness :
  let st := new_service ∅ Example.logged_in None None in
  let st' := snd (SLO_do Example.idp Example.lib
                    (Example.env "/slo/soap" None None None "nid-testuser")
                    (VStr "nid-testuser") BINDING_SOAP (VStr "") st) in
  lookup_by_user (cache st') "testuser" = None /\
  lookup_session (cache st') "uid1" = None /\
  trace st' = [RemoveAuthnStatements "nid-testuser"].
Proof.
  intros st st'.
  apply (slo_removes_session Example.idp Example.lib
           (Example.env "/slo/soap" None None None "nid-testuser") st
           (VStr "nid-testuser") (VStr "") BINDING_SOAP
           (mkLogoutRequest (Some "nid-testuser")) "nid-testuser" "testuser"
           "uid1"); reflexivity.
Defined.

(** *** More on [do_verify] *)





(** *** What decoding raises *)

Lemma a2b_loop_raises (input : bytes) :
  forall (quad_pos : nat) (leftchar : N) (pads : nat) (out : bytes) (e : exn),
    Base64.a2b_loop input quad_pos leftchar pads out = Raise e ->
    e = BinasciiError.
Proof.
  induction input as [| ch rest IH]; intros quad_pos leftchar pads out e;
    cbn [Base64.a2b_loop].
  - destruct quad_pos; [discriminate | by intros [= <-]].
  - destruct (Byte.eqb ch Base64.pad).
    + destruct (2 <=? quad_pos)%nat; [| apply IH].
      destruct (4 <=? quad_pos + S pads)%nat; [discriminate | apply IH].
    + destruct (Base64.table_a2b ch); [| apply IH].
      destruct quad_pos as [| [| [| ?]]]; apply IH.
Qed.

Lemma b64decode_raises (s : string) (e : exn) :
  Base64.b64decode s = Raise e -> is_ValueError e = true.
Proof.
  unfold Base64.b64decode.
  destruct (str_encode_ascii s) as [bs |]; [| by intros [= <-]].
  unfold Base64.a2b. intros H. by rewrite (a2b_loop_raises _ _ _ _ _ _ H).
Qed.

Lemma info_from_morsel_raises (c : Cache) (v : string) (e : exn) :
  info_from_morsel c v = Raise e ->
  is_ValueError e = true \/ e = KeyError.
Proof.
  unfold info_from_morsel.
  destruct (Base64.b64decode v) as [d |] eqn:Hd; cbn [Py.bind].
  - unfold bytes_decode_ascii.
    destruct (forallb is_ascii_byte d); cbn [Py.bind];
      [| intros [= <-]; by left].
    destruct (unpack2 (str_split1 ":" (string_of_list_byte d))) as [kr |] eqn:Hu;
      cbn [Py.bind].
    + unfold getitem. destruct (uid2user c !! kr.1); cbn [Py.bind];
        [discriminate | intros [= <-]; by right].
    + intros [= <-]. left. unfold unpack2 in Hu.
      destruct (str_split1 ":" _) as [| ? [| ? [| ? ?]]]; by inversion Hu.
  - intros [= <-]. left. by apply (b64decode_raises v).
Qed.

(** X8: [info_from_cookie] has four kinds of outcome: (absent, absent); a
    user together with a reference, and then a session of the cache maps to
    that user; the exception that [SimpleCookie] raises on the header, which
    stands before the [try]; or, for a header that is parsed, an exception of
    the [ValueError] family from the decoding of the [idpauthn] value. The
    decoding never lets a [KeyError] or a [TypeError] out, the two classes
    that the handler names. *)
Theorem info_from_cookie_outcomes (lib : StdLib) (c : Cache)
    (kaka : option string) :
  match info_from_cookie lib c kaka with
  | Ok (None, None) => True
  | Ok (Some user, Some _) => exists sid, lookup_session c sid = Some user
  | Ok _ => False
  | Raise e =>
      exists k, kaka = Some k /\ str_truthy k = true /\
        (morsel_value lib k "idpauthn" = Raise e \/
         exists v, morsel_value lib k "idpauthn" = Ok (Some v) /\
                   is_ValueError e = true)
  end.
Proof.
  unfold info_from_cookie.
  destruct kaka as [k |]; [| done].
  destruct (str_truthy k) eqn:Hk; [| done].
  destruct (morsel_value lib k "idpauthn") as [[v |] | e0] eqn:Hmv; [| done |].
  - destruct (info_from_morsel c v) as [[ou oref] | e] eqn:Hm.
    + unfold info_from_morsel in Hm.
      destruct (Base64.b64decode v) as [d |]; cbn [Py.bind] in Hm;
        [| discriminate].
      destruct (bytes_decode_ascii d) as [t |]; cbn [Py.bind] in Hm;
        [| discriminate].
      destruct (unpack2 (str_split1 ":" t)) as [kr |]; cbn [Py.bind] in Hm;
        [| discriminate].
      unfold getitem in Hm.
      destruct (uid2user c !! kr.1) as [user |] eqn:Hu; cbn [Py.bind] in Hm;
        [| discriminate].
      inversion Hm; subst. by exists kr.1.
    + destruct (info_from_morsel_raises c v e Hm) as [Hv | ->]; [| done].
      assert (is_KeyError e || is_TypeError e = false) as ->
        by (by destruct e).
      exists k. split; [done |]. split; [done |]. right. by exists v.
  - exists k. split; [done |]. split; [done |]. by left.
Qed.

(** X28: a cookie header that [SimpleCookie] refuses makes [application]
    raise the same exception before any routing, whatever the path (other
    than [idp.xml]), the query string and the session cache. *)
Theorem application_illegal_cookie_raises
    (lib : StdLib) (broker : gmap string string) (c : Cache) (env : Environ)
    (kaka : string) (e : exn) :
  HTTP_COOKIE env = Some kaka ->
  str_truthy kaka = true ->
  morsel_value lib kaka "idpauthn" = Raise e ->
  String.eqb (lstrip_slash (default "" (PATH_INFO env))) "idp.xml" = false ->
  info_from_cookie lib c (Some kaka) = Raise e /\
  application lib broker c env = Raise e.
Proof.
  intros Hc Hk Hm Hp.
  assert (info_from_cookie lib c (Some kaka) = Raise e) as Hinfo.
  { unfold info_from_cookie. by rewrite Hk, Hm. }
  split; [done |].
  unfold application. rewrite Hp. unfold resolve_user.
  rewrite Hc. cbn [opt_truthy]. by rewrite Hk, Hinfo.
Qed.

Lemma application_illegal_cookie_raises_witness :
  application Example.lib Example.broker Example.logged_in
    (Example.env "/verify" None (Some "a@b=1") None Example.login_form)
  = Raise CookieError.
Proof.
  apply (application_illegal_cookie_raises Example.lib Example.broker
           Example.logged_in
           (Example.env "/verify" None (Some "a@b=1") None Example.login_form)
           "a@b=1" CookieError); reflexivity.
Defined.

(** *** The ECP entry never reaches the operation *)

(** X18: [SSO.ecp] never reaches the SSO operation: for every request the
    outcome is the Unauthorized response or an exception ([TypeError] from the
    split of the decoded credentials, or a [ValueError] of [b64decode]), and
    the state is unchanged. *)
Theorem ecp_never_reaches_operation (idp : IdpServer) (env : Environ)
    (post : result string) (st : State) :
  snd (SSO_ecp idp env post st) = st /\
  match fst (SSO_ecp idp env post st) with
  | Ok (Return r) => r = Unauthorized ""
  | Ok _ => False
  | Raise e => e = TypeError \/ is_ValueError e = true
  end.
Proof.
  unfold SSO_ecp, ecp_authorize.
  destruct (HTTP_AUTHORIZATION env) as [authz |]; cbn [Py.bind is_KeyError];
    [| done].
  destruct (startswith authz "Basic "); [| done].
  destruct (Base64.b64decode (str_drop 6 authz)) as [creds |] eqn:Hd.
  - cbn. split; [done |]. by left.
  - pose proof (b64decode_raises _ _ Hd) as Hv.
    destruct e; try discriminate; cbn; split; try done; by right.
Qed.


(** *** Cookies that make [application] fail *)

Lemma info_from_morsel_colonless (c : Cache) (t v : string) :
  is_ascii_str t = true ->
  cut_at ":" t = None ->
  bytes_decode_ascii (Base64.b64encode (list_byte_of_string t)) = Ok v ->
  info_from_morsel c v = Raise ValueError.
Proof.
  intros Ht Hcut Hv. unfold bytes_decode_ascii, Base64.b64encode in Hv.
  rewrite b2a_ascii in Hv. inversion Hv; subst v.
  unfold info_from_morsel, Base64.b64decode, str_encode_ascii.
  rewrite list_byte_of_string_of_list_byte, b2a_ascii, a2b_b2a.
  cbn [Py.bind]. unfold bytes_decode_ascii. unfold is_ascii_str in Ht.
  rewrite Ht, string_of_list_byte_of_string. cbn [Py.bind].
  unfold str_split1. by rewrite Hcut.
Qed.

(** X9: a cookie whose [idpauthn] value is the base64 text of an ASCII text
    without a colon makes [info_from_cookie] raise a [ValueError], and with
    it [application], whatever the path (other than [idp.xml]) and the query
    string. *)
Theorem application_colonless_cookie_raises
    (lib : StdLib) (broker : gmap string string) (c : Cache) (env : Environ)
    (kaka t v : string) :
  HTTP_COOKIE env = Some kaka ->
  str_truthy kaka = true ->
  morsel_value lib kaka "idpauthn" = Ok (Some v) ->
  bytes_decode_ascii (Base64.b64encode (list_byte_of_string t)) = Ok v ->
  is_ascii_str t = true ->
  cut_at ":" t = None ->
  String.eqb (lstrip_slash (default "" (PATH_INFO env))) "idp.xml" = false ->
  info_from_cookie lib c (Some kaka) = Raise ValueError /\
  application lib broker c env = Raise ValueError.
Proof.
  intros Hc Hk Hm Hv Ht Hcut Hp.
  assert (info_from_cookie lib c (Some kaka) = Raise ValueError) as Hinfo.
  { unfold info_from_cookie. rewrite Hk, Hm.
    by rewrite (info_from_morsel_colonless c t v). }
  split; [done |].
  unfold application. rewrite Hp. unfold resolve_user.
  rewrite Hc. cbn [opt_truthy]. by rewrite Hk, Hinfo.
Qed.

Lemma application_colonless_cookie_raises_witness :
  application Example.lib Example.broker Example.logged_in
    (Example.env "/sso/redirect" (Some "id=uid1") (Some "idpauthn=YWJj") None "")
  = Raise ValueError.
Proof.
  apply (application_colonless_cookie_raises Example.lib Example.broker
           Example.logged_in
           (Example.env "/sso/redirect" (Some "id=uid1")
              (Some "idpauthn=YWJj") None "")
           "idpauthn=YWJj" "abc" "YWJj"); reflexivity.
Defined.



(** *** URL patterns *)

Lemma re_search_here (re : list ritem) (s : string) :
  match_here re s = true -> re_search re s = true.
Proof. intros H. destruct s; cbn [re_search]; by rewrite H. Qed.

Lemma re_search_app (re : list ritem) (pre s : string) :
  re_search re s = true -> re_search re (pre +:+ s) = true.
Proof.
  intros H. induction pre as [| ch pre IH]; [done |].
  change (String ch pre +:+ s) with (String ch (pre +:+ s)).
  cbn [re_search]. rewrite IH. apply orb_true_r.
Qed.

Lemma match_here_lit (a : string) (re : list ritem) (s : string) :
  match_here (lit a ++ re) (a +:+ s) = match_here re s.
Proof.
  induction a as [| ch a IH]; [done |].
  change (lit (String ch a) ++ re) with (RChar ch :: (lit a ++ re)).
  change (String ch a +:+ s) with (String ch (a +:+ s)).
  cbn [match_here]. by rewrite Ascii.eqb_refl, IH.
Qed.

Lemma match_here_dotstar_end (rest : string) :
  no_newline rest = true -> match_here [RDotStar; REnd] rest = true.
Proof.
  induction rest as [| ch rest IH]; [done |].
  cbn [no_newline]. intros [Hc Hr]%andb_true_iff.
  specialize (IH Hr). cbn [match_here] in *.
  rewrite Hc. cbn [andb]. rewrite IH. apply orb_true_r.
Qed.

(** X11: for a request without a user, every path that contains the text
    verif, followed by no newline, is handed to [do_verify], whatever stands
    before and after it: the pattern of [do_verify] is searched, not matched
    at the start, and is tried first. *)
Theorem anonymous_verif_routing
    (lib : StdLib) (broker : gmap string string) (c : Cache) (env : Environ)
    (u a : option string) (pre rest : string) :
  resolve_user lib broker c env = Ok (u, a) ->
  opt_truthy u = false ->
  lstrip_slash (default "" (PATH_INFO env)) = pre +:+ "verif" +:+ rest ->
  no_newline rest = true ->
  application lib broker c env = Ok (ToCallback Function_do_verify u a).
Proof.
  intros Hres Hu Hpath Hrest.
  assert (re_search (lit "verif" ++ [ROpt "y"; RDotStar; REnd])
            (pre +:+ "verif" +:+ rest) = true) as Hm.
  { apply re_search_app, re_search_here. rewrite match_here_lit.
    change (match_here (ROpt "y" :: [RDotStar; REnd]) rest)
      with (match rest with
            | String d s' => Ascii.eqb "y" d && match_here [RDotStar; REnd] s'
            | EmptyString => false
            end || match_here [RDotStar; REnd] rest).
    rewrite (match_here_dotstar_end rest Hrest). apply orb_true_r. }
  unfold application. rewrite Hpath.
  destruct (String.eqb (pre +:+ "verif" +:+ rest) "idp.xml") eqn:He.
  - apply String.eqb_eq in He. rewrite He in Hm. discriminate.
  - rewrite Hres. cbn [Py.bind fst snd]. rewrite Hu. cbn [negb].
    rewrite first_match_app.
    change (first_match NON_AUTHN_URLS (pre +:+ "verif" +:+ rest))
      with (if re_search (lit "verif" ++ [ROpt "y"; RDotStar; REnd])
                 (pre +:+ "verif" +:+ rest)
            then Some Function_do_verify
            else first_match [(exact "sso/ecp", Method SSO m_ecp)]
                   (pre +:+ "verif" +:+ rest)).
    by rewrite Hm.
Qed.

Lemma anonymous_verif_routing_witness :
  application Example.lib Example.broker Example.logged_in
    (Example.env "/static/verification.css" None None None "")
  = Ok (ToCallback Function_do_verify None None).
Proof.
  apply (anonymous_verif_routing Example.lib Example.broker Example.logged_in
           (Example.env "/static/verification.css" None None None "")
           None None "static/" "ication.css"); reflexivity.
Defined.

(** X12: the URL patterns are searched anywhere in the path: if a path
    reaches a callback of a table, so does every path that ends with it. *)
Theorem url_patterns_ignore_prefix (ps : list (list ritem * callback))
    (pre path : string) (cb : callback) :
  first_match ps path = Some cb ->
  exists cb', first_match ps (pre +:+ path) = Some cb'.
Proof.
  induction ps as [| [re cb0] ps IH]; cbn [first_match]; [discriminate |].
  destruct (re_search re path) eqn:Hm.
  - intros _. rewrite (re_search_app re pre path Hm). by exists cb0.
  - intros H. destruct (re_search re (pre +:+ path)); [by exists cb0 |].
    by apply IH.
Qed.

Lemma url_patterns_ignore_prefix_witness :
  exists cb', first_match AUTHN_URLS ("tenant/a/" +:+ "slo/soap") = Some cb'.
Proof.
  apply (url_patterns_ignore_prefix AUTHN_URLS "tenant/a/" "slo/soap"
           (Method SLO m_soap)). reflexivity.
Defined.


(** *** Consistency of the session cache *)

Lemma consistent_apply_op (c : Cache) (op : cache_op) :
  consistent c ->
  match op with
  | OpRegister _ uid => lookup_session c uid = None
  | OpRemove _ => True
  end ->
  consistent (apply_op c op).
Proof.
  unfold consistent, lookup_by_user, lookup_session.
  intros Hc Hfresh. destruct op as [user uid | lid]; cbn.
  - intros u s. destruct (decide (user = u)) as [-> | Hne].
    + rewrite lookup_insert_eq. intros [= <-]. by rewrite lookup_insert_eq.
    + rewrite lookup_insert_ne by done. intros Hu.
      assert (uid <> s) as Hs by (intros ->; rewrite (Hc u s Hu) in Hfresh;
                                   discriminate).
      rewrite lookup_insert_ne by done. by apply Hc.
  - unfold cache_remove.
    destruct (user2uid c !! lid) as [uid |] eqn:Hlid; [| exact Hc].
    cbn. intros u s. destruct (decide (lid = u)) as [-> | Hne].
    + by rewrite lookup_delete_eq.
    + rewrite lookup_delete_ne by done. intros Hu.
      assert (uid <> s) as Hs.
      { intros ->. pose proof (Hc lid s Hlid) as H1.
        pose proof (Hc u s Hu) as H2. congruence. }
      destruct (uid2user c !! uid);
        [rewrite lookup_delete_ne by done |]; by apply Hc.
Qed.

(** X7: as long as every login registers an identifier that no session of
    the cache has at that moment, logins and logouts keep the cache
    consistent: the current session identifier of each user resolves back to
    that user. *)
Theorem cache_stays_consistent (ops : list cache_op) (c : Cache) :
  consistent c -> fresh_ops c ops -> consistent (run_ops c ops).
Proof.
  revert c. induction ops as [| op ops IH]; intros c Hc Hf; [done |].
  cbn in Hf. destruct Hf as [Hop Hrest].
  change (run_ops c (op :: ops)) with (run_ops (apply_op c op) ops).
  apply IH; [by apply consistent_apply_op | done].
Qed.

Lemma cache_stays_consistent_witness :
  lookup_session
    (run_ops Cache_init
       [OpRegister "testuser" "uid1"; OpRegister "babs" "uid2";
        OpRegister "testuser" "uid3"; OpRemove "testuser"]) "uid2"
  = Some "babs".
Proof.
  apply (cache_stays_consistent
           [OpRegister "testuser" "uid1"; OpRegister "babs" "uid2";
            OpRegister "testuser" "uid3"; OpRemove "testuser"] Cache_init).
  - intros u s H. unfold lookup_by_user in H. cbn in H.
    rewrite lookup_empty in H. discriminate.
  - repeat split; reflexivity.
  - reflexivity.
Defined.

(** *** What [SLO.do] leaves alone *)

Lemma cache_remove_frame (c : Cache) (lid : string) :
  (forall s u, lookup_session (cache_remove c lid) s = Some u ->
               lookup_session c s = Some u) /\
  (forall u s, lookup_by_user (cache_remove c lid) u = Some s ->
               lookup_by_user c u = Some s) /\
  (forall s u, lookup_session c s = Some u ->
               lookup_by_user c lid <> Some s ->
               lookup_session (cache_remove c lid) s = Some u) /\
  (forall u s, lookup_by_user c u = Some s -> u <> lid ->
               lookup_by_user (cache_remove c lid) u = Some s).
Proof.
  unfold cache_remove, lookup_session, lookup_by_user.
  destruct (user2uid c !! lid) as [uid |] eqn:Hlid; [| done]. cbn.
  repeat split.
  - intros s u. destruct (uid2user c !! uid); [| done].
    intros H. apply lookup_delete_Some in H. by destruct H.
  - intros u s H. apply lookup_delete_Some in H. by destruct H.
  - intros s u Hs Hne. destruct (uid2user c !! uid); [| done].
    rewrite lookup_delete_ne; [done | congruence].
  - intros u s Hu Hne. by rewrite lookup_delete_ne.
Qed.

Lemma SLO_do_state (idp : IdpServer) (lib : StdLib) (env : Environ)
    (request relay_state : value) (binding : Binding) (st : State) :
  let st' := snd (SLO_do idp lib env request binding relay_state st) in
  ticket st' = ticket st /\
  (cache st' = cache st \/
   exists lid, cache st' = cache_remove (cache st) lid).
Proof.
  unfold SLO_do.
  destruct (parse_logout_request idp request binding) as [msg |]; cbn;
    [| by split; [| left]].
  destruct (name_id msg) as [nid |]; cbn; [| by split; [| left]].
  assert (cache_remove_lid (cache st) (find_local_id idp nid) = cache st \/
          exists lid, cache_remove_lid (cache st) (find_local_id idp nid)
                      = cache_remove (cache st) lid) as Hc'.
  { destruct (find_local_id idp nid) as [lid |]; [right; by exists lid | by left]. }
  destruct (remove_authn_statements idp nid) as [[] | e]; cbn; [done |].
  by destruct (is_KeyError e).
Qed.

(** X6: [SLO.do] never touches the ticket store and never adds to the
    session cache; a session identifier that is no user's current mapping
    survives every logout request. *)
Theorem slo_only_removes_current_sessions
    (idp : IdpServer) (lib : StdLib) (env : Environ)
    (request relay_state : value) (binding : Binding) (st : State) :
  let st' := snd (SLO_do idp lib env request binding relay_state st) in
  ticket st' = ticket st /\
  (forall s u, lookup_session (cache st') s = Some u ->
               lookup_session (cache st) s = Some u) /\
  (forall u s, lookup_by_user (cache st') u = Some s ->
               lookup_by_user (cache st) u = Some s) /\
  (forall s u, lookup_session (cache st) s = Some u ->
               (forall lid, lookup_by_user (cache st) lid <> Some s) ->
               lookup_session (cache st') s = Some u).
Proof.
  destruct (SLO_do_state idp lib env request relay_state binding st)
    as [Ht [Hc | [lid Hc]]]; cbn zeta; rewrite Hc; split; try done.
  pose proof (cache_remove_frame (cache st) lid) as (H1 & H2 & H3 & _).
  split; [exact H1 |]. split; [exact H2 |].
  intros s u Hs Hno. by apply H3.
Qed.

(** *** [Service.operation] and the SOAP entry *)

(** X14: the SOAP entry answers with the BadRequest of [Service.operation]
    exactly when reading the request body raises, which [unpack_soap]
    turns into an absent envelope. Whenever the body is read, an empty body
    included, the envelope holds [SAMLRequest] and [do] is called with the
    body, an empty relay state and no signature. The state is unchanged. *)
Theorem service_soap_outcomes (idp : IdpServer) (post : result string)
    (st : State) :
  Service_soap idp post st
  = match post with
    | Ok body =>
        (Ok (Do (VStr body) BINDING_SOAP
               (mkKwargs None None None (Some (VStr "")))), st)
    | Raise _ =>
        (Ok (Return (BadRequest "Error parsing request or no request")), st)
    end.
Proof.
  unfold Service_soap, unpack_soap, operation.
  destruct post as [body | e]; [| reflexivity].
  set (msg := <["SAMLRequest" := VStr body]>
                (<["RelayState" := VStr ""]> (∅ : Envelope))).
  assert (msg !! "SAMLRequest" = Some (VStr body)) as Hq
    by apply lookup_insert_eq.
  assert (dict_truthy msg = true) as Ht.
  { unfold dict_truthy. destruct (map_to_list msg) eqn:Hl; [| done].
    apply map_to_list_empty_iff in Hl. rewrite Hl, lookup_empty in Hq.
    discriminate. }
  assert (msg !! "Signature" = None) as Hs.
  { subst msg. rewrite !lookup_insert_ne by done. apply lookup_empty. }
  assert (msg !! "req_info" = None) as Hr.
  { subst msg. rewrite !lookup_insert_ne by done. apply lookup_empty. }
  assert (msg !! "RelayState" = Some (VStr "")) as Hrs.
  { subst msg. rewrite lookup_insert_ne by done. apply lookup_insert_eq. }
  unfold contains. rewrite Ht, Hq, Hs, Hr, Hrs. reflexivity.
Qed.

(** X13: [Service.operation] leaves the state unchanged and ends in one of
    three ways: a response of status 400; the call of [do] with the
    [SAMLRequest], the binding, the [RelayState] and the [Signature] of the
    envelope (a signature only together with its [SigAlg]); or an
    [AttributeError], when [req_info] is not a parsed request. It never shows
    the login form. *)
Theorem operation_outcomes (idp : IdpServer) (saml_msg : option Envelope)
    (binding : Binding) (st : State) :
  snd (operation idp saml_msg binding st) = st /\
  match fst (operation idp saml_msg binding st) with
  | Ok (Return r) => status r = 400
  | Ok (NotAuthn _ _) => False
  | Ok (Do query b kw) =>
      b = binding /\
      (exists msg, saml_msg = Some msg /\
                   msg !! "SAMLRequest" = Some query /\
                   kw_relay_state kw = msg !! "RelayState" /\
                   kw_signature kw = msg !! "Signature" /\
                   (kw_signature kw <> None ->
                    kw_sigalg kw = msg !! "SigAlg" /\ kw_sigalg kw <> None))
  | Raise e => e = AttributeError
  end.
Proof.
  split; [apply operation_state |].
  unfold operation. destruct saml_msg as [msg |]; [| done].
  unfold contains.
  destruct (msg !! "SAMLRequest") as [q |] eqn:Hq;
    [| by rewrite andb_false_r].
  destruct (negb _); [done |].
  destruct (msg !! "Signature") as [sig |] eqn:Hs.
  - destruct (msg !! "SigAlg") as [alg |] eqn:Ha; [| done].
    destruct (msg !! "req_info") as [ri |]; cbn.
    + destruct ri; cbn; try done.
      split; [done |]. exists msg. by rewrite Hs, Ha.
    + split; [done |]. exists msg. by rewrite Hs, Ha.
  - destruct (msg !! "req_info") as [ri |]; cbn.
    + destruct ri; cbn; try done.
      split; [done |]. exists msg. by rewrite Hs.
    + split; [done |]. exists msg. by rewrite Hs.
Qed.


(** *** Signatures, tickets and anonymous requests in [SSO] *)

(** X15: without a user, a request that takes no ticket from the store
    never reaches [do], neither through [SSO.redirect] nor through
    [SSO.post]: it ends in a response, the login form or an exception. *)
Theorem anonymous_request_needs_ticket (idp : IdpServer) (lib : StdLib)
    (env : Environ) (st : State) (msg msg' : Envelope) :
  opt_truthy (self_user st) = false ->
  read_ticket (ticket st) msg = TicketMiss msg' ->
  (unpack_redirect lib env = Some msg ->
   forall q b kw, fst (SSO_redirect idp lib env st) <> Ok (Do q b kw)) /\
  (unpack_either lib env = Ok (Some msg) ->
   forall q b kw, fst (SSO_post idp lib env st) <> Ok (Do q b kw)).
Proof.
  intros Hu Hmiss.
  assert (forall (m : Envelope) (r : AuthnRequest) (s : State) q b kw,
             fst (store_and_login lib m r s) <> Ok (Do q b kw)) as Hsl.
  { intros m r s q b kw. unfold store_and_login.
    destruct (_store_request lib _ s) as [[key | e] s']; cbn; discriminate. }
  split.
  - intros Hmsg q b kw. unfold SSO_redirect. rewrite Hmsg, Hmiss.
    unfold redirect_no_ticket.
    destruct (msg' !! "SAMLRequest") as [query |]; [| discriminate].
    destruct (parse_authn_request idp query BINDING_HTTP_REDIRECT)
      as [[ri |] | e]; [| discriminate |].
    + destruct (_ && negb _); [discriminate |].
      unfold redirect_proceed. cbn [self_user set_req_info].
      rewrite Hu. apply Hsl.
    + destruct (is_KeyError e); discriminate.
  - intros Hmsg q b kw. unfold SSO_post. rewrite Hmsg, Hmiss.
    unfold post_no_ticket.
    destruct (msg' !! "SAMLRequest") as [query |]; [| discriminate].
    destruct (parse_authn_request idp query BINDING_HTTP_POST)
      as [[ri |] | e]; [| discriminate | discriminate].
    cbn [self_user set_req_info]. rewrite Hu. apply Hsl.
Qed.

Lemma anonymous_request_needs_ticket_witness :
  let env := Example.env "/sso/redirect"
               (Some "SAMLRequest=req&Signature=cert2&SigAlg=rsa-sha1")
               None None "" in
  let st := new_service Example.tickets Example.logged_in None None in
  match fst (SSO_redirect Example.idp Example.lib env st) with
  | Ok (Do _ _ _) => False
  | _ => True
  end.
Proof.
  intros env st.
  pose proof (anonymous_request_needs_ticket Example.idp Example.lib env st
                (first_values Example.lib
                   "SAMLRequest=req&Signature=cert2&SigAlg=rsa-sha1")
                (first_values Example.lib
                   "SAMLRequest=req&Signature=cert2&SigAlg=rsa-sha1")
                eq_refl eq_refl) as [H _].
  destruct (fst (SSO_redirect Example.idp Example.lib env st))
    as [[r | key requested | q b kw] | e] eqn:Hrun; try exact I.
  exact (H eq_refl q b kw eq_refl).
Defined.

(** X16: the login round trip of [SSO.redirect]: an anonymous unsigned
    request is stored under the hash of its [SAMLRequest] and answered with
    the login form for that key; a later request that names the key gets the
    stored request back, with the parsed request, and reaches [do] with the
    original [SAMLRequest] and [RelayState]; the ticket is then gone. *)
Theorem login_round_trip (idp : IdpServer) (lib : StdLib)
    (env1 env2 : Environ) (st1 st2 : State) (msg1 msg2 : Envelope)
    (raw : string) (ri : ReqInfo) :
  (* the first request: anonymous, unsigned, not resuming a ticket *)
  unpack_redirect lib env1 = Some msg1 ->
  read_ticket (ticket st1) msg1 = TicketMiss msg1 ->
  opt_truthy (self_user st1) = false ->
  msg1 !! "SAMLRequest" = Some (VStr raw) ->
  msg1 !! "Signature" = None ->
  parse_authn_request idp (VStr raw) BINDING_HTTP_REDIRECT = Ok (Some ri) ->
  let key := sha1_hexdigest lib (str_encode_utf8 raw) in
  let run1 := SSO_redirect idp lib env1 st1 in
  (* the second request names the key and meets the store the first left *)
  unpack_redirect lib env2 = Some msg2 ->
  msg2 !! "key" = Some (VStr key) ->
  ticket st2 = ticket (snd run1) ->
  let run2 := SSO_redirect idp lib env2 st2 in
  fst run1 = Ok (NotAuthn key (requested_authn_context (message ri))) /\
  fst run2
  = Ok (Do (VStr raw) BINDING_HTTP_REDIRECT
          (mkKwargs None None (encrypt_cert_from_item idp (message ri))
             (msg1 !! "RelayState"))) /\
  self_req_info (snd run2) = VReq ri /\
  ticket (snd run2) !! key = None.
Proof.
  intros Hm1 Hmiss Hu Hraw Hsig Hparse key run1 Hm2 Hkey Ht run2.
  set (stored := <["req_info" := VReq ri]> msg1).
  assert (stored !! "SAMLRequest" = Some (VStr raw)) as Hs1
    by (subst stored; by rewrite lookup_insert_ne).
  assert (run1 = (Ok (NotAuthn key (requested_authn_context (message ri))),
                  set_ticket (<[key := stored]> (ticket st1))
                    (set_req_info (VReq ri) st1))) as Hrun1.
  { subst run1. unfold SSO_redirect. rewrite Hm1, Hmiss.
    unfold redirect_no_ticket. rewrite Hraw, Hparse.
    unfold contains at 2. rewrite Hsig, andb_false_r. cbn [andb].
    unfold redirect_proceed. cbn [self_user set_req_info]. rewrite Hu.
    unfold store_and_login, _store_request, ticket_key, getitem.
    cbn [self_req_info set_req_info]. fold stored. by rewrite Hs1. }
  rewrite Hrun1 in Ht. cbn [snd ticket set_ticket] in Ht.
  assert (read_ticket (ticket st2) msg2 = TicketHit key stored (VReq ri))
    as Hhit.
  { unfold read_ticket. rewrite Hkey, Ht, lookup_insert_eq.
    subst stored. by rewrite lookup_insert_eq. }
  assert (run2 = operation idp (Some stored) BINDING_HTTP_REDIRECT
                   (set_ticket (delete key (ticket st2))
                      (set_req_info (VReq ri) st2))) as Hrun2.
  { subst run2. unfold SSO_redirect. by rewrite Hm2, Hhit. }
  split; [by rewrite Hrun1 |].
  rewrite Hrun2. split; [| split].
  - unfold operation.
    assert (dict_truthy stored = true) as ->.
    { unfold dict_truthy. destruct (map_to_list stored) eqn:Hl; [| done].
      apply map_to_list_empty_iff in Hl. rewrite Hl, lookup_empty in Hs1.
      discriminate. }
    unfold contains. rewrite Hs1. cbn [andb negb].
    assert (stored !! "Signature" = None) as ->
      by (subst stored; by rewrite lookup_insert_ne).
    assert (stored !! "req_info" = Some (VReq ri)) as ->
      by (subst stored; by rewrite lookup_insert_eq).
    assert (stored !! "RelayState" = msg1 !! "RelayState") as ->
      by (subst stored; by rewrite lookup_insert_ne).
    reflexivity.
  - by rewrite operation_state.
  - rewrite operation_state. cbn [ticket set_ticket].
    by rewrite lookup_delete_eq.
Qed.

Lemma login_round_trip_witness :
  let lib := mkStdLib
               (fun qs => if String.eqb qs "SAMLRequest=req"
                          then list_to_map [("SAMLRequest", ("req", []))]
                          else list_to_map [("key", ("req", []))])
               Example.morsel_value Example.cookie_output "" (fun _ => "") ""
               (fun b => string_of_list_byte b) normpath Example.read_file "" in
  let env1 := Example.env "/sso/redirect" (Some "SAMLRequest=req") None None "" in
  let env2 := Example.env "/sso/redirect" (Some "id=uid1&key=req") None None "" in
  let st1 := new_service ∅ Cache_init None None in
  let run1 := SSO_redirect Example.idp lib env1 st1 in
  let st2 := new_service (ticket (snd run1)) Example.logged_in None
               (Some "testuser") in
  fst run1 = Ok (NotAuthn "req" None) /\
  fst (SSO_redirect Example.idp lib env2 st2)
  = Ok (Do (VStr "req") BINDING_HTTP_REDIRECT (mkKwargs None None None None)).
Proof.
  intros lib env1 env2 st1 run1 st2.
  pose proof (login_round_trip Example.idp lib env1 env2 st1 st2
                (first_values lib "SAMLRequest=req")
                (first_values lib "id=uid1&key=req") "req"
                (mkReqInfo Example.authn_request)
                eq_refl eq_refl eq_refl eq_refl eq_refl eq_refl
                eq_refl eq_refl eq_refl) as (H1 & H2 & _).
  split; [exact H1 | exact H2].
Defined.

(** *** The root test of [staticfile] *)

Lemma startswith_head (c d : ascii) (s p : string) :
  startswith (String c s) (String d p) = true -> c = d.
Proof.
  unfold startswith. cbn. destruct (ascii_dec d c) as [-> |]; [done |].
  discriminate.
Qed.

(** X19: when the configured root does not start with a slash (the default
    of the option [-p] is [./idp_conf.py]) and [realpath] returns absolute
    paths, [staticfile] answers every request with Unauthorized. *)
Theorem staticfile_relative_root_rejects (lib : StdLib) (env : Environ)
    (c : ascii) (rest : string) :
  c <> "/"%char ->
  (forall p, startswith (realpath lib p) "/" = true) ->
  staticfile lib (String c rest) env = Ok (Unauthorized "").
Proof.
  intros Hc Habs. unfold staticfile.
  set (path := realpath lib _).
  destruct (startswith path (String c rest)) eqn:Hs; [| done].
  exfalso. specialize (Habs (((if String.eqb
      (str_drop (String.length (String c rest) - 1) (String c rest)) "/"
      then String c rest else String c rest +:+ "/")
      +:+ lstrip_slash (default "" (PATH_INFO env))))).
  change (realpath lib _) with path in Habs.
  destruct path as [| d path']; [discriminate |].
  apply startswith_head in Hs. apply startswith_head in Habs. congruence.
Qed.


(** *** [Service.response] *)

Lemma location_response_none (hs : list (string * string))
    (resp : option response) :
  has_location hs = false -> location_response hs resp = resp.
Proof.
  revert resp. induction hs as [| [k v] hs IH]; intros resp; cbn; [done |].
  destruct (String.eqb k "Location"); [discriminate |]. apply IH.
Qed.

Lemma location_response_last (hs1 hs2 : list (string * string)) (v : string)
    (resp : option response) :
  has_location hs2 = false ->
  location_response (hs1 ++ ("Location", v) :: hs2) resp
  = Some (Redirect v []).
Proof.
  intros H2. revert resp.
  induction hs1 as [| [k w] hs1 IH]; intros resp; cbn.
  - by apply location_response_none.
  - destruct (String.eqb k "Location"); apply IH.
Qed.

Lemma has_location_app (hs1 hs2 : list (string * string)) :
  has_location (hs1 ++ hs2) = has_location hs1 || has_location hs2.
Proof.
  induction hs1 as [| [k w] hs1 IH]; cbn; [done |].
  by rewrite IH, orb_assoc.
Qed.

Lemma has_location_last (hs : list (string * string)) :
  has_location hs = true ->
  exists hs1 v hs2,
    hs = hs1 ++ ("Location", v) :: hs2 /\ has_location hs2 = false.
Proof.
  induction hs as [| [k w] hs IH]; cbn; [discriminate |].
  destruct (has_location hs) eqn:Hrest.
  - intros _. destruct (IH eq_refl) as (hs1 & v & hs2 & -> & H2).
    by exists ((k, w) :: hs1), v, hs2.
  - rewrite orb_false_r. intros Hk%String.eqb_eq. subst k.
    by exists [], w, hs.
Qed.

(** X21: [Service.response] for a binding other than HTTP-Artifact and
    empty data: the answer is a redirect to the value of the last header
    named [Location] (in this spelling), and a ServiceError of status 500
    exactly when there is no such header. *)
Theorem service_response_without_data (binding : option Binding)
    (http_args : HttpArgs) :
  binding <> Some BINDING_HTTP_ARTIFACT ->
  data http_args = "" ->
  (forall hs1 v hs2,
      headers http_args = hs1 ++ ("Location", v) :: hs2 ->
      has_location hs2 = false ->
      Service_response binding http_args = Redirect v []) /\
  (status (Service_response binding http_args) = 500 <->
   has_location (headers http_args) = false) /\
  (status (Service_response binding http_args) = 500 \/
   status (Service_response binding http_args) = 302).
Proof.
  intros Hb Hd.
  assert (Service_response binding http_args
          = match location_response (headers http_args) None with
            | Some r => r
            | None => ServiceError "Don't know how to return response"
            end) as Hrun.
  { unfold Service_response. rewrite Hd.
    destruct binding as [[] |]; try done. }
  rewrite Hrun. split; [| split].
  - intros hs1 v hs2 -> H2. by rewrite location_response_last.
  - destruct (has_location (headers http_args)) eqn:Hl.
    + destruct (has_location_last _ Hl) as (hs1 & v & hs2 & -> & H2).
      rewrite location_response_last by done. by split.
    + by rewrite location_response_none.
  - destruct (has_location (headers http_args)) eqn:Hl.
    + destruct (has_location_last _ Hl) as (hs1 & v & hs2 & -> & H2).
      rewrite location_response_last by done. by right.
    + rewrite location_response_none by done. by left.
Qed.

Lemma service_response_without_data_witness :
  Service_response (Some BINDING_HTTP_REDIRECT)
    (mkHttpArgs [("Location", "https://a.example/"); ("X", "1");
                 ("Location", "https://b.example/"); ("location", "c")] "")
  = Redirect "https://b.example/" [] /\
  status (Service_response (Some BINDING_HTTP_REDIRECT)
            (mkHttpArgs [("location", "https://a.example/")] "")) = 500.
Proof.
  split.
  - apply (service_response_without_data (Some BINDING_HTTP_REDIRECT)
             (mkHttpArgs [("Location", "https://a.example/"); ("X", "1");
                          ("Location", "https://b.example/");
                          ("location", "c")] ""))
      with (hs1 := [("Location", "https://a.example/"); ("X", "1")])
           (hs2 := [("location", "c")]); done.
  - apply (service_response_without_data (Some BINDING_HTTP_REDIRECT)
             (mkHttpArgs [("location", "https://a.example/")] "")); done.
Defined.

(** *** [Service.artifact_operation] *)

(** X22: [Service.artifact_operation] on a non-empty envelope: without
    [SAMLart] a [KeyError] escapes; and when [do], called with the relay
    state, raises a [KeyError], [do] is run a second time, without relay
    state, from the state the first run left. *)
Theorem artifact_operation_edges (artifact2message : value -> result value)
    (do : value -> Binding -> value -> M response)
    (msg : Envelope) (st : State) :
  dict_truthy msg = true ->
  (msg !! "SAMLart" = None ->
   artifact_operation artifact2message do (Some msg) st = (Raise KeyError, st)) /\
  (forall art request relay_state st',
      msg !! "SAMLart" = Some art ->
      artifact2message art = Ok request ->
      msg !! "RelayState" = Some relay_state ->
      do request BINDING_HTTP_ARTIFACT relay_state st = (Raise KeyError, st') ->
      artifact_operation artifact2message do (Some msg) st
      = do request BINDING_HTTP_ARTIFACT (VStr "") st').
Proof.
  intros Ht. unfold artifact_operation, getitem. rewrite Ht. cbn [negb].
  split.
  - by intros ->.
  - intros art request relay_state st' -> -> -> Hdo. by rewrite Hdo.
Qed.

Lemma artifact_operation_edges_witness :
  let do := fun (q : value) (b : Binding) (relay : value) (st : State) =>
              match relay with
              | VStr EmptyString => (Ok (Response "done" []), log_event (RemoveAuthnStatements "second") st)
              | _ => (Raise KeyError, log_event (RemoveAuthnStatements "first") st)
              end in
  let msg : Envelope := list_to_map [("SAMLart", VStr "AAQAAM"); ("RelayState", VStr "rs")] in
  let st := new_service ∅ Cache_init None None in
  artifact_operation (fun art => Ok art) do (Some msg) st
  = (Ok (Response "done" []),
     log_event (RemoveAuthnStatements "second")
       (log_event (RemoveAuthnStatements "first") st)).
Proof.
  intros do msg st.
  pose proof (artifact_operation_edges (fun art => Ok art) do msg st eq_refl)
    as [_ H].
  by rewrite (H (VStr "AAQAAM") (VStr "AAQAAM") (VStr "rs")
                (log_event (RemoveAuthnStatements "first") st)).
Defined.

(** *** The login form *)

(** X23: [Service.not_authn] is decided by the first method the broker
    picks: none gives Unauthorized "No usable authentication method"; the
    function [username_password_authn] gives the login page for the key, the
    reference and the URL of the request, with the header that expires the
    [idpauthn] cookie exactly when the request had a cookie; a method that is
    a [str] gives a [TypeError]. *)
Theorem not_authn_by_first_method (sso : SsoServer) (lib : StdLib)
    (env : Environ) (key : string) (requested : option string) :
  match broker_pick sso requested with
  | [] =>
      not_authn sso lib env key requested
      = Ok (Unauthorized "No usable authentication method")
  | (username_password_authn_fn, reference) :: _ =>
      exists r,
        not_authn sso lib env key requested = Ok r /\
        status r = 200 /\
        rmessage r
        = login_page sso (login_argv reference key (geturl sso env)) /\
        rheaders r
        = if opt_truthy (HTTP_COOKIE env)
          then [cookie_output lib "idpauthn" "" "/" (_expiration lib Dawn)]
          else []
  | (str_method _, _) :: _ =>
      not_authn sso lib env key requested = Raise TypeError
  end.
Proof.
  unfold not_authn, delete_cookie, do_authentication.
  destruct (broker_pick sso requested) as [| [[| s] reference] rest].
  - by destruct (str_truthy _).
  - destruct (HTTP_COOKIE env) as [k |]; cbn; [| by eexists].
    destruct (str_truthy k); by eexists.
  - by destruct (str_truthy _).
Qed.


(** *** [SSO.do] *)

Lemma verify_request_user (idp : IdpServer) (sso : SsoServer) (query : value)
    (binding : Binding) (st : State) :
  self_user (snd (verify_request idp sso query binding st)) = self_user st /\
  environ_idp_authn (snd (verify_request idp sso query binding st))
  = environ_idp_authn st.
Proof.
  unfold verify_request. destruct (negb (value_truthy query)); [done |].
  destruct (negb (value_truthy (self_req_info st))).
  - destruct (parse_authn_request idp query binding) as [[ri |] | e];
      cbn; try done.
    destruct (pick_binding sso _ _) as [[bo dest] | e]; cbn; [| done].
    destruct (response_args sso _) as [args | [| | e]]; done.
  - destruct (value_message (self_req_info st)) as [m | e]; cbn; [| done].
    destruct (pick_binding sso _ _) as [[bo dest] | e]; cbn; [| done].
    destruct (response_args sso _) as [args | [| | e]]; done.
Qed.

Lemma SSO_do_without_identity (idp : IdpServer) (sso : SsoServer)
    (query relay_state : value) (binding : Binding)
    (encrypt_cert : option string) (st : State)
    (create : gmap string string -> option string -> option string ->
              list (string * string) -> option string -> sresult string) :
  user_identity sso (self_user st) = Raise KeyError ->
  SSO_do idp (with_create_authn_response sso create) query binding relay_state
    encrypt_cert st
  = SSO_do idp sso query binding relay_state encrypt_cert st.
Proof.
  intros Hid. unfold SSO_do.
  change (verify_request idp (with_create_authn_response sso create))
    with (verify_request idp sso).
  pose proof (verify_request_user idp sso query binding st) as [Hu _].
  destruct (verify_request idp sso query binding st)
    as [[[[[args resp] bo] dest] | [| | e]] st1]; try done.
  cbn [snd] in Hu. destruct resp as [r |]; [done |].
  change (user_identity (with_create_authn_response sso create))
    with (user_identity sso).
  by rewrite Hu, Hid.
Qed.

(** X24: [SSO.do] needs an entry of [USERS] for [self.user]: for an unknown
    or absent user a request that passes [verify_request] without an error
    response ends in a [KeyError], and the result of [SSO.do] does not depend
    on [create_authn_response]. *)
Theorem sso_do_needs_identity (idp : IdpServer) (sso : SsoServer)
    (query relay_state : value) (binding : Binding)
    (encrypt_cert : option string) (st : State) :
  user_identity sso (self_user st) = Raise KeyError ->
  (forall args bo dest st1,
      verify_request idp sso query binding st = (SOk (args, None, bo, dest), st1) ->
      SSO_do idp sso query binding relay_state encrypt_cert st
      = (SRaise (Builtin KeyError), st1)) /\
  (forall create,
      SSO_do idp (with_create_authn_response sso create) query binding
        relay_state encrypt_cert st
      = SSO_do idp sso query binding relay_state encrypt_cert st).
Proof.
  intros Hid. split.
  - intros args bo dest st1 Hv. unfold SSO_do. rewrite Hv.
    pose proof (verify_request_user idp sso query binding st) as [Hu _].
    rewrite Hv in Hu. cbn [snd] in Hu. by rewrite Hu, Hid.
  - intros create. by apply SSO_do_without_identity.
Qed.

Lemma sso_do_needs_identity_witness :
  SSO_do Example.idp Example2.sso (VStr "req") BINDING_HTTP_REDIRECT (VStr "")
    None (new_service ∅ Example.logged_in None (Some "babs"))
  = (SRaise (Builtin KeyError),
     set_req_info (VReq (mkReqInfo Example.authn_request))
       (new_service ∅ Example.logged_in None (Some "babs"))).
Proof.
  pose proof (sso_do_needs_identity Example.idp Example2.sso (VStr "req")
                (VStr "") BINDING_HTTP_REDIRECT None
                (new_service ∅ Example.logged_in None (Some "babs")) eq_refl)
    as [H _].
  by apply (H [("in_response_to", "id-1")] (Some BINDING_HTTP_POST)
              (Some "https://sp.example/acs")).
Defined.

(** X25: the failures that [SSO.do] handles all become a ServiceError of
    status 500: any exception of [create_authn_response], and
    [UnknownPrincipal] or [UnsupportedBinding] from [verify_request]; any
    other exception of [verify_request] escapes. *)
Theorem sso_do_failures_are_service_errors (idp : IdpServer)
    (sso : SsoServer) (query relay_state : value) (binding : Binding)
    (encrypt_cert : option string) (st st1 : State) :
  (forall args bo dest attrs e,
      verify_request idp sso query binding st = (SOk (args, None, bo, dest), st1) ->
      user_identity sso (self_user st) = Ok attrs ->
      create_authn_response sso
        (match self_user st with
         | Some u => <["uid" := u]> attrs
         | None => attrs
         end) (self_user st) encrypt_cert args (environ_idp_authn st)
      = SRaise e ->
      SSO_do idp sso query binding relay_state encrypt_cert st
      = (SOk (ServiceError ("Exception: " +:+ saml_exn_text e)), st1)) /\
  (forall e,
      verify_request idp sso query binding st = (SRaise e, st1) ->
      match e with
      | Builtin b =>
          SSO_do idp sso query binding relay_state encrypt_cert st
          = (SRaise (Builtin b), st1)
      | _ =>
          exists r,
            SSO_do idp sso query binding relay_state encrypt_cert st
            = (SOk r, st1) /\ status r = 500
      end).
Proof.
  pose proof (verify_request_user idp sso query binding st) as [Hu Ha].
  split.
  - intros args bo dest attrs e Hv Hid Hc. unfold SSO_do. rewrite Hv in *.
    cbn [snd] in Hu, Ha. by rewrite Hu, Ha, Hid, Hc.
  - intros e Hv. unfold SSO_do. rewrite Hv.
    destruct e as [| | b]; [by eexists | by eexists | done].
Qed.

(** *** An anonymous request never obtains an assertion *)

Lemma SSO_handler_user (idp : IdpServer) (lib : StdLib) (env : Environ)
    (st : State) :
  self_user (snd (SSO_redirect idp lib env st)) = self_user st /\
  self_user (snd (SSO_post idp lib env st)) = self_user st.
Proof.
  assert (forall (m : Envelope) (r : AuthnRequest) (s : State),
             self_user (snd (store_and_login lib m r s)) = self_user s) as Hsl.
  { intros m r s. unfold store_and_login, _store_request.
    by destruct (ticket_key lib _). }
  split.
  - unfold SSO_redirect. destruct (unpack_redirect lib env) as [msg |]; [| done].
    destruct (read_ticket (ticket st) msg) as [k stored ri | msg'].
    + by rewrite operation_state.
    + unfold redirect_no_ticket.
      destruct (msg' !! "SAMLRequest") as [q |]; [| done].
      destruct (parse_authn_request idp q BINDING_HTTP_REDIRECT)
        as [[ri |] | e]; [| done | by destruct (is_KeyError e)].
      destruct (_ && negb _); [done |]. unfold redirect_proceed.
      destruct (opt_truthy _); [| by rewrite Hsl].
      destruct (forces_authn _); [by rewrite Hsl | by rewrite operation_state].
  - unfold SSO_post. destruct (unpack_either lib env) as [[msg |] | e];
      [| done | done].
    destruct (read_ticket (ticket st) msg) as [k stored ri | msg'].
    + by rewrite operation_state.
    + unfold post_no_ticket.
      destruct (msg' !! "SAMLRequest") as [q |]; [| done].
      destruct (parse_authn_request idp q BINDING_HTTP_POST)
        as [[ri |] | e]; [| done | done].
      destruct (opt_truthy _); [| by rewrite Hsl].
      destruct (forces_authn _); [by rewrite Hsl | by rewrite operation_state].
Qed.

Lemma SSO_finish_without_identity (idp : IdpServer) (sso : SsoServer)
    (lib : StdLib) (env : Environ) (run : result outcome * State)
    (create : gmap string string -> option string -> option string ->
              list (string * string) -> option string -> sresult string) :
  self_user (snd run) = None ->
  SSO_finish idp (with_create_authn_response sso create) lib env run
  = SSO_finish idp sso lib env run.
Proof.
  intros Hu. destruct run as [[[r | key requested | q b kw] | e] st1];
    cbn [snd] in Hu; try done.
  unfold SSO_finish. apply SSO_do_without_identity. by rewrite Hu.
Qed.

(** X26: for a service without a user, what [SSO.redirect] and [SSO.post]
    finally answer does not depend on [create_authn_response]: no assertion
    is built for an anonymous request, a resumed ticket included. *)
Theorem anonymous_request_builds_no_assertion (idp : IdpServer)
    (sso : SsoServer) (lib : StdLib) (env : Environ) (st : State)
    (create : gmap string string -> option string -> option string ->
              list (string * string) -> option string -> sresult string) :
  self_user st = None ->
  SSO_finish idp (with_create_authn_response sso create) lib env
    (SSO_redirect idp lib env st)
  = SSO_finish idp sso lib env (SSO_redirect idp lib env st) /\
  SSO_finish idp (with_create_authn_response sso create) lib env
    (SSO_post idp lib env st)
  = SSO_finish idp sso lib env (SSO_post idp lib env st).
Proof.
  intros Hu. pose proof (SSO_handler_user idp lib env st) as [H1 H2].
  split; apply SSO_finish_without_identity; congruence.
Qed.

Lemma anonymous_request_builds_no_assertion_witness :
  let env := Example.env "/sso/redirect" (Some "key=k1") None None "" in
  let st := new_service Example.tickets Example.logged_in None None in
  fst (SSO_redirect Example.idp Example.lib env st)
  = Ok (Do (VStr "req") BINDING_HTTP_REDIRECT (mkKwargs None None None None)) /\
  fst (SSO_finish Example.idp Example2.sso Example.lib env
         (SSO_redirect Example.idp Example.lib env st))
  = SRaise (Builtin KeyError).
Proof.
  intros env st. split; [reflexivity |].
  pose proof (anonymous_request_builds_no_assertion Example.idp Example2.sso
                Example.lib env st (fun _ _ _ _ _ => SOk "forged") eq_refl)
    as [H _].
  rewrite <- H. reflexivity.
Defined.

(** *** A signed POST is not checked *)



(** *** More on the root test of [staticfile] *)

Lemma normpath_absolute (p : string) : startswith (normpath p) "/" = true.
Proof.
  unfold normpath.
  destruct (resolve_components (split_slash p "") []) as [| comp comps];
    [reflexivity |].
  assert (forall s, String.prefix "" s = true) as Hnil by (by intros []).
  unfold startswith. destruct comps; simpl; apply Hnil.
Qed.

Lemma staticfile_relative_root_rejects_witness :
  staticfile Example.lib "./idp_conf.py"
    (Example.env "/static/logo.svg" None None None "")
  = Ok (Unauthorized "").
Proof.
  apply (staticfile_relative_root_rejects Example.lib
           (Example.env "/static/logo.svg" None None None "")
           "." "/idp_conf.py"); [discriminate |].
  intros p. apply normpath_absolute.
Defined.

(** X20: with an empty configured root the root test of [staticfile]
    passes for every path. The file served is the one that the request path
    resolves to under the directory of the module, wherever that is: when
    it can be read the answer is its content with status 200, and every
    response is of that form, so no request is answered with Unauthorized. *)
Theorem staticfile_empty_root_rejects_nothing (lib : StdLib) (env : Environ) :
  let dir := module_dir lib in
  let dir := if String.eqb (str_drop (String.length dir - 1) dir) "/"
             then dir else dir +:+ "/" in
  let file := realpath lib (dir +:+ lstrip_slash (default "" (PATH_INFO env))) in
  (forall text,
      read_file lib file = Some text ->
      staticfile lib "" env = Ok (Response text [("Content-Type", "text/xml")])) /\
  (forall r,
      staticfile lib "" env = Ok r ->
      status r = 200 /\
      exists text,
        read_file lib file = Some text /\
        r = Response text [("Content-Type", "text/xml")]).
Proof.
  intros dir dir' file.
  assert (staticfile lib "" env
          = match read_file lib file with
            | Some text => Ok (Response text [("Content-Type", "text/xml")])
            | None => Raise AttributeError
            end) as Hrun.
  { unfold staticfile. cbn [String.length Nat.eqb].
    assert (forall p, startswith p "" = true) as Hp by (by intros []).
    by rewrite Hp. }
  rewrite Hrun. split.
  - by intros text ->.
  - intros r. destruct (read_file lib file) as [text |]; [| discriminate].
    intros [= <-]. split; [reflexivity |]. by exists text.
Qed.

Lemma staticfile_empty_root_rejects_nothing_witness :
  let lib := mkStdLib Example.parse_qs Example.morsel_value
               Example.cookie_output "" (fun _ => "") ""
               (fun b => string_of_list_byte b) normpath Example.read_file
               "/srv/idp" in
  staticfile lib "" (Example.env "/static/../../idp_secret/key" None None None "")
  = Ok (Response "PRIVATE KEY" [("Content-Type", "text/xml")]).
Proof.
  intros lib.
  by apply (staticfile_empty_root_rejects_nothing lib
              (Example.env "/static/../../idp_secret/key" None None None "")).
Defined.

(** *** The response of [SLO.do] over HTTP-Redirect *)

Lemma find_location_first (hs1 hs2 : list (string * string)) (k v : string) :
  String.eqb (str_lower k) "location" = true ->
  (forall k' v', In (k', v') hs1 ->
                 String.eqb (str_lower k') "location" = false) ->
  find_location (hs1 ++ (k, v) :: hs2) = Some v.
Proof.
  intros Hk. induction hs1 as [| [k0 v0] hs1 IH]; intros Hno; cbn.
  - by rewrite Hk.
  - rewrite (Hno k0 v0) by (by left). apply IH.
    intros k' v' Hin. apply (Hno k' v'). by right.
Qed.

Lemma find_location_none (hs : list (string * string)) :
  (forall k v, In (k, v) hs -> String.eqb (str_lower k) "location" = false) ->
  find_location hs = None.
Proof.
  induction hs as [| [k0 v0] hs IH]; intros Hno; cbn; [done |].
  rewrite (Hno k0 v0) by (by left). apply IH.
  intros k v Hin. apply (Hno k v). by right.
Qed.

(** X27: when the logout response goes out over HTTP-Redirect, [SLO.do]
    answers with a redirect to the value of the first header whose name is
    [location] in any case, among the headers of the binding followed by the
    header that expires the [idpauthn] cookie if the request had a cookie;
    without such a header the answer is the ServiceError "missing Location
    header". *)
Theorem slo_redirect_response (idp : IdpServer) (lib : StdLib)
    (env : Environ) (msg : LogoutRequest) (binding : Binding)
    (relay_state : value) (destination : string) (hinfo : HttpArgs) :
  Binding_eqb binding BINDING_SOAP = false ->
  pick_binding_slo idp binding msg = Ok (BINDING_HTTP_REDIRECT, destination) ->
  apply_binding idp BINDING_HTTP_REDIRECT
    (create_logout_response idp msg binding) destination relay_state true
  = Ok hinfo ->
  let hs := headers hinfo
            ++ (if opt_truthy (HTTP_COOKIE env)
                then [cookie_output lib "idpauthn" "" "/" (_expiration lib Dawn)]
                else []) in
  (forall hs1 k v hs2,
      hs = hs1 ++ (k, v) :: hs2 ->
      String.eqb (str_lower k) "location" = true ->
      (forall k' v', In (k', v') hs1 ->
                     String.eqb (str_lower k') "location" = false) ->
      slo_respond idp lib env msg binding relay_state = Ok (Redirect v hs)) /\
  ((forall k v, In (k, v) hs ->
                String.eqb (str_lower k) "location" = false) ->
   slo_respond idp lib env msg binding relay_state
   = Ok (ServiceError "missing Location header")).
Proof.
  intros Hb Hpick Happly hs.
  assert (slo_respond idp lib env msg binding relay_state
          = match find_location hs with
            | Some v => Ok (Redirect v hs)
            | None => Ok (ServiceError "missing Location header")
            end) as Hrun.
  { unfold slo_respond. rewrite Hb, Hpick. cbn [Py.bind fst snd].
    rewrite Happly. cbn [Binding_eqb]. subst hs. unfold delete_cookie.
    destruct (HTTP_COOKIE env) as [k |]; simpl.
    - destruct (str_truthy k); [reflexivity |]. by rewrite app_nil_r.
    - by rewrite app_nil_r. }
  rewrite Hrun. split.
  - intros hs1 k v hs2 Heq Hk Hno. rewrite Heq at 1.
    by rewrite (find_location_first hs1 hs2 k v Hk Hno).
  - intros Hno. by rewrite (find_location_none hs Hno).
Qed.

Lemma slo_redirect_response_witness :
  let idp := mkIdpServer (parse_authn_request Example.idp)
               (metadata_certs Example.idp)
               (verify_redirect_signature Example.idp)
               (encrypt_cert_from_item Example.idp)
               (parse_logout_request Example.idp)
               (find_local_id Example.idp)
               (remove_authn_statements Example.idp)
               (create_logout_response Example.idp)
               (fun _ _ => Ok (BINDING_HTTP_REDIRECT, "https://sp.example/slo"))
               (fun _ _ dest _ _ =>
                  Ok (mkHttpArgs [("X-Frame", "deny"); ("LOCATION", dest)] "")) in
  slo_respond idp Example.lib
    (Example.env "/slo/redirect" None (Some "idpauthn=abc") None "")
    (mkLogoutRequest (Some "nid-testuser")) BINDING_HTTP_POST (VStr "")
  = Ok (Redirect "https://sp.example/slo"
          [("X-Frame", "deny"); ("LOCATION", "https://sp.example/slo");
           Example.cookie_output "idpauthn" "" "/"
             "Thu, 01-Jan-1970 00:00:00 GMT"]).
Proof.
  intros idp.
  pose proof (slo_redirect_response idp Example.lib
                (Example.env "/slo/redirect" None (Some "idpauthn=abc") None "")
                (mkLogoutRequest (Some "nid-testuser")) BINDING_HTTP_POST
                (VStr "") "https://sp.example/slo"
                (mkHttpArgs [("X-Frame", "deny");
                             ("LOCATION", "https://sp.example/slo")] "")
                eq_refl eq_refl eq_refl) as [H _].
  apply (H [("X-Frame", "deny")] "LOCATION" "https://sp.example/slo"
           [Example.cookie_output "idpauthn" "" "/"
              "Thu, 01-Jan-1970 00:00:00 GMT"]); [reflexivity | reflexivity |].
  intros k' v' [Heq | []]. by inversion Heq.
Defined.
